(** * Batch-scoring execution unit of azure-model-factory

    A shallow embedding of
    [aml_services/scoring/parallel_batchscore.py]: the manual argument
    scan [parse_args], the worker initialiser [init] and the per-batch
    hook [run], together with the fragments of Python, numpy and pandas
    those three functions rely on. *)

From Stdlib Require Import ZArith String Ascii Bool Lia.
From stdpp Require Import base list strings gmap pretty.

Local Open Scope string_scope.
Local Open Scope list_scope.
Local Open Scope nat_scope.

(** ** Python exceptions and results *)

Module Py.

(** The classes that matter to [except Exception]: every class below is a
    subclass of [Exception] except [BaseExceptionOnly], which stands for
    the classes deriving from [BaseException] alone ([KeyboardInterrupt],
    [SystemExit], [GeneratorExit]). *)
Inductive exn_class : Type :=
  | ValueError
  | IndexError
  | AttributeError
  | OtherException
  | BaseExceptionOnly.

(** An exception instance: its class and [str(ex)]. *)
Record exn : Type := Exn { exn_cls : exn_class; exn_str : string }.

(** [isinstance(ex, Exception)], the test of an [except Exception] clause. *)
Definition isinstance_Exception (e : exn) : bool :=
  match exn_cls e with
  | BaseExceptionOnly => false
  | _ => true
  end.

(** Either a call returns a value or it raises. *)
Inductive outcome (A : Type) : Type :=
  | Returned (a : A)
  | Raised (e : exn).
Arguments Returned {A} a.
Arguments Raised {A} e.

Definition bind {A B} (m : outcome A) (k : A -> outcome B) : outcome B :=
  match m with
  | Returned a => k a
  | Raised e => Raised e
  end.

(** [l[i]] for a non-negative index. *)
Definition getitem {A} (l : list A) (i : nat) : outcome A :=
  match l !! i with
  | Some x => Returned x
  | None => Raised (Exn IndexError "list index out of range")
  end.

(** [str.isspace] on one character; the characters of a [string] are read
    as the code points 0..255. *)
Definition isspace (c : ascii) : bool :=
  let n := nat_of_ascii c in
  ((9 <=? n)%nat && (n <=? 13)%nat) || ((28 <=? n)%nat && (n <=? 32)%nat)
  || (n =? 133)%nat || (n =? 160)%nat.

Fixpoint lstrip (s : string) : string :=
  match s with
  | EmptyString => EmptyString
  | String c r => if isspace c then lstrip r else s
  end.

Fixpoint rstrip (s : string) : string :=
  match s with
  | EmptyString => EmptyString
  | String c r =>
      match rstrip r with
      | EmptyString => if isspace c then EmptyString else String c EmptyString
      | r' => String c r'
      end
  end.

(** [s.strip()] with no argument. *)
Definition strip (s : string) : string := rstrip (lstrip s).

End Py.

Import Py.

#[global] Instance outcome_ret : MRet outcome := @Returned.
#[global] Instance outcome_bind : MBind outcome :=
  fun A B k m => Py.bind m k.

(** ** The Argument Resolver *)

(** The four-element list that [parse_args] returns, by position. *)
Record ModelFilter : Type := MkFilter {
  model_name : string;
  model_version : option string;
  model_tag_name : option string;
  model_tag_value : option string
}.

(** [[(argv[idx], argv[idx + 1]) for idx, itm in enumerate(argv) if itm == flag]],
    the loop running over [items] from position [idx] on. *)
Fixpoint flag_params_from (argv : list string) (flag : string)
    (idx : nat) (items : list string) : outcome (list (string * string)) :=
  match items with
  | [] => Returned []
  | itm :: rest =>
      if String.eqb itm flag then
        a ← getitem argv idx;
        b ← getitem argv (idx + 1);
        ps ← flag_params_from argv flag (S idx) rest;
        Returned ((a, b) :: ps)
      else flag_params_from argv flag (S idx) rest
  end.

Definition flag_params (argv : list string) (flag : string)
  : outcome (list (string * string)) :=
  flag_params_from argv flag 0 argv.

Definition parse_args (argv : list string) : outcome ModelFilter :=
  model_name_param ← flag_params argv "--model_name";
  if (length model_name_param =? 0)%nat then
    Raised (Exn ValueError
      "Model name is required but no model name parameter was passed to the script")
  else
  p0 ← getitem model_name_param 0;
  let model_name := p0.2 in
  model_version_param ← flag_params argv "--model_version";
  model_version ←
    (if (length model_version_param <? 1)%nat then Returned None
     else
       v ← getitem model_version_param 0;
       if (String.length (strip v.2) =? 0)%nat then Returned None
       else v' ← getitem model_version_param 0; Returned (Some v'.2));
  model_tag_name_param ← flag_params argv "--model_tag_name";
  model_tag_name ←
    (if (length model_tag_name_param <? 1)%nat then Returned None
     else
       v ← getitem model_tag_name_param 0;
       if (String.length (strip v.2) =? 0)%nat then Returned None
       else v' ← getitem model_tag_name_param 0; Returned (Some v'.2));
  model_tag_value_param ← flag_params argv "--model_tag_value";
  model_tag_value ←
    (if (length model_tag_value_param <? 1)%nat then Returned None
     else
       v ← getitem model_tag_name_param 0;
       if (String.length (strip v.2) =? 0)%nat then Returned None
       else v' ← getitem model_tag_value_param 0; Returned (Some v'.2));
  Returned (MkFilter model_name model_version model_tag_name model_tag_value).

(** ** Reading the argument vector declaratively *)

(** The four tokens the resolver looks for. *)
Definition recognised_flags : list string :=
  ["--model_name"; "--model_version"; "--model_tag_name"; "--model_tag_value"].

(** The token that immediately follows the first occurrence of [flag]. *)
Fixpoint value_after (flag : string) (argv : list string) : option string :=
  match argv with
  | [] => None
  | itm :: rest =>
      if String.eqb itm flag then head rest else value_after flag rest
  end.

(** Flags come in flag/value pairs: no recognised flag is the final token. *)
Definition paired (argv : list string) : Prop :=
  Forall (λ flag, last argv ≠ Some flag) recognised_flags.

(** Empty or made of whitespace only. *)
Fixpoint whitespace_only (s : string) : bool :=
  match s with
  | EmptyString => true
  | String c r => isspace c && whitespace_only r
  end.

(** A supplied value that is blank counts as not supplied. *)
Definition unless_blank (v : option string) : option string :=
  match v with
  | Some s => if whitespace_only s then None else Some s
  | None => None
  end.

(** The configuration error of a vector without a model name. *)
Definition model_name_required : exn :=
  Exn ValueError
    "Model name is required but no model name parameter was passed to the script".

(** Indexing an empty list of pairs. *)
Definition index_out_of_range : exn :=
  Exn IndexError "list index out of range".

(** The comprehension without its index arithmetic: what it computes on
    the remaining tokens alone. *)
Fixpoint scan (flag : string) (items : list string)
  : outcome (list (string * string)) :=
  match items with
  | [] => Returned []
  | itm :: rest =>
      if String.eqb itm flag then
        b ← getitem rest 0;
        ps ← scan flag rest;
        Returned ((itm, b) :: ps)
      else scan flag rest
  end.


(** ** numpy and pandas, as far as the scoring hook uses them *)

(** A row or column label of a pandas index. *)
Inductive label : Type :=
  | LInt (z : Z)
  | LStr (s : string).

#[global] Instance label_eq_dec : EqDecision label.
Proof. solve_decision. Defined.

(** The texts that numpy and pandas put into two of their exceptions vary
    with the version of the library and are left open: the message of
    [np.vstack] for arrays of [ca] and [cb] columns, and [str] of a pandas
    [Index] of the given labels. *)
Class LibraryTexts : Type := {
  concatenate_mismatch : nat → nat → string;
  Index_str : list label → string
}.

Section Scoring.
Context {value : Type} {texts : LibraryTexts}.

(** A table or array entry: a value, or the missing-value marker that
    pandas fills in where a join finds no partner. *)
Inductive cell : Type :=
  | Val (v : value)
  | NaN.

(** An array of dimension 0, 1 or 2; a two-dimensional one carries its
    number of columns, so that the shape of an array without rows is
    known. *)
Inductive ndarray : Type :=
  | Arr0 (x : cell)
  | Arr1 (xs : list cell)
  | Arr2 (ncols : nat) (rows : list (list cell)).

(** [np.array(a)] on an array: a copy. *)
Definition np_array (a : ndarray) : ndarray := a.

(** [np.atleast_2d]: shape [()] becomes [(1, 1)], shape [(n,)] becomes
    [(1, n)]. The result is given as column count and rows. *)
Definition atleast_2d (a : ndarray) : nat * list (list cell) :=
  match a with
  | Arr0 x => (1, [[x]])
  | Arr1 xs => (length xs, [xs])
  | Arr2 c rows => (c, rows)
  end.

(** [np.vstack((a, b))]: both made two-dimensional, then concatenated
    along the first axis, which requires equal column counts. *)
Definition np_vstack (a b : ndarray) : outcome ndarray :=
  let '(ca, ra) := atleast_2d a in
  let '(cb, rb) := atleast_2d b in
  if (ca =? cb)%nat then Returned (Arr2 ca (ra ++ rb))
  else Raised (Exn ValueError (concatenate_mismatch ca cb)).

(** [values.reshape(1, -1)] on the one-dimensional values of a row. *)
Definition reshape_1_row (values : list cell) : ndarray :=
  Arr2 (length values) [values].

(** A [pd.DataFrame]: row labels, column labels and the rows of cells. *)
Record DataFrame : Type := DF {
  df_index : list label;
  df_columns : list label;
  df_values : list (list cell)
}.

(** [pd.RangeIndex(n)]: the labels 0, 1, ..., n-1. *)
Definition RangeIndex (n : nat) : list label :=
  (λ i, LInt (Z.of_nat i)) <$> seq 0 n.

(** The text of the [ValueError] of pandas for values of shape [(r, c)]
    under [k] column labels. *)
Definition shape_mismatch (r c k : nat) : string :=
  "Shape of passed values is (" ++ pretty r ++ ", " ++ pretty c
  ++ "), indices imply (" ++ pretty r ++ ", " ++ pretty k ++ ")".

(** [pd.DataFrame(values, columns=cols)] on an array: a one-dimensional
    array is taken as a single column, a two-dimensional one must have as
    many columns as [cols]; the index is a fresh [RangeIndex]. *)
Definition pd_DataFrame (values : ndarray) (cols : list label)
  : outcome DataFrame :=
  match values with
  | Arr0 _ => Raised (Exn ValueError "Must pass 2-d input. shape=()")
  | Arr1 xs =>
      if (1 =? length cols)%nat
      then Returned (DF (RangeIndex (length xs)) cols ((λ x, [x]) <$> xs))
      else Raised (Exn ValueError (shape_mismatch (length xs) 1 (length cols)))
  | Arr2 c rows =>
      if (c =? length cols)%nat
      then Returned (DF (RangeIndex (length rows)) cols rows)
      else Raised (Exn ValueError (shape_mismatch (length rows) c (length cols)))
  end.

(** [df.iterrows()]: the pairs of row label and row values, in row order. *)
Definition iterrows (df : DataFrame) : list (label * list cell) :=
  zip (df_index df) (df_values df).

(** The row of [other] labelled [l], or a row of missing values when no
    row of [other] carries that label. *)
Definition row_at (other : DataFrame) (l : label) : list cell :=
  match list_find (λ r, r.1 = l) (iterrows other) with
  | Some (_, (_, row)) => row
  | None => replicate (length (df_columns other)) NaN
  end.

(** [left.join(other)]: a left join on the row labels. The rows and the
    row labels of [left] are kept in order and each is extended with the
    row of [other] that carries the same label. A column label present on
    both sides is refused. The labels of [other] are assumed distinct, as
    those of a [RangeIndex] are. The error names the labels common to
    both sides, in the order of [left]. *)
Definition df_join (left other : DataFrame) : outcome DataFrame :=
  if decide (Forall (λ c, c ∉ df_columns left) (df_columns other)) then
    Returned (DF (df_index left)
                 (df_columns left ++ df_columns other)
                 (zip_with (λ l row, row ++ row_at other l)
                           (df_index left) (df_values left)))
  else
    let to_rename :=
      remove_dups (filter (λ c, c ∈ df_columns other) (df_columns left)) in
    Raised (Exn ValueError
              ("columns overlap but no suffix specified: "
               ++ Index_str to_rename)).

(** ** The worker process *)

(** What [joblib.load] yields: an object with a [predict] method, taking
    a matrix with one row and returning an array or raising. *)
Record LoadedModel : Type := { predict : ndarray → outcome ndarray }.

(** The state of the worker process that the two hooks touch: what was
    printed, the module-level variable [model], and, for observation
    only, the arguments of the calls made to [model.predict]. *)
Record World : Type := MkWorld {
  stdout : list string;
  model : option LoadedModel;
  predict_calls : list ndarray
}.

(** A computation of the worker: it runs in a state and returns or
    raises, leaving a state. *)
Definition M (A : Type) : Type := World → outcome A * World.

#[global] Instance M_ret : MRet M := λ A a w, (Returned a, w).
#[global] Instance M_bind : MBind M := λ A B k m w,
  match m w with
  | (Returned a, w') => k a w'
  | (Raised e, w') => (Raised e, w')
  end.

(** A pure call that may raise. *)
Definition lift {A} (o : outcome A) : M A := λ w, (o, w).

(** [print(s)] *)
Definition print (s : string) : M unit := λ w,
  (Returned (), MkWorld (stdout w ++ [s]) (model w) (predict_calls w)).

(** [model = m] under [global model] *)
Definition assign_model (m : LoadedModel) : M unit := λ w,
  (Returned (), MkWorld (stdout w) (Some m) (predict_calls w)).

(** [model.predict(x)]: on [None] the attribute lookup fails. *)
Definition model_predict (x : ndarray) : M ndarray := λ w,
  match model w with
  | None =>
      (Raised (Exn AttributeError "'NoneType' object has no attribute 'predict'"), w)
  | Some m =>
      (predict m x, MkWorld (stdout w) (model w) (predict_calls w ++ [x]))
  end.

(** [try: body except Exception as ex: handler(ex)] *)
Definition try_except_Exception {A} (body : M A) (handler : exn → M A) : M A :=
  λ w,
  match body w with
  | (Returned a, w') => (Returned a, w')
  | (Raised ex, w') =>
      if isinstance_Exception ex then handler ex w' else (Raised ex, w')
  end.

(** ** The scoring hook *)

(** What [run] may hand back: the empty list, a table, or [None] when
    the function ends without a [return]. *)
Inductive run_value : Type :=
  | EmptyList
  | Frame (df : DataFrame)
  | PyNone.

(** The [for _, sample in mini_batch.iterrows()] loop, [result] being the
    loop variable of that name. *)
Fixpoint score_rows (rows : list (label * list cell)) (result : option ndarray)
  : M (option ndarray) :=
  match rows with
  | [] => mret result
  | (_, sample) :: rest =>
      pred ← model_predict (reshape_1_row sample);
      result' ← match result with
                 | None => mret (np_array pred)
                 | Some r => lift (np_vstack r pred)
                 end;
      score_rows rest (Some result')
  end.

Definition run (mini_batch : DataFrame) : M run_value :=
  try_except_Exception
    (result ← score_rows (iterrows mini_batch) None;
     match result with
     | None => mret EmptyList
     | Some r =>
         scores ← lift (pd_DataFrame r [LStr "score"]);
         joined ← lift (df_join mini_batch scores);
         mret (Frame joined)
     end)
    (λ ex, print (exn_str ex);; mret PyNone).

(** ** Reading a batch and its scores declaratively *)

(** [len(df)]: the number of row labels. *)
Definition nrows (df : DataFrame) : nat := length (df_index df).

(** Every row label has its row of values. *)
Definition aligned (df : DataFrame) : Prop :=
  length (df_values df) = nrows df.

(** The matrices handed to [model.predict] for the given rows, in order. *)
Definition call_args (rows : list (list cell)) : list ndarray :=
  reshape_1_row <$> rows.

(** The state after the hook has called [predict] on [rows]: only the
    record of calls has grown. *)
Definition after_calls (w : World) (rows : list (list cell)) : World :=
  MkWorld (stdout w) (model w) (predict_calls w ++ call_args rows).

(** The prediction for one row as a single score: an array of shape
    [(1,)] or [(1, 1)]. *)
Definition single_score (pred : ndarray) : option cell :=
  match pred with
  | Arr1 [s] => Some s
  | Arr2 1 [[s]] => Some s
  | _ => None
  end.

(** The model returns the single score [s] on the row [row]. *)
Definition predicts (m : LoadedModel) (row : list cell) (s : cell) : Prop :=
  ∃ pred, predict m (reshape_1_row row) = Returned pred
          ∧ single_score pred = Some s.

(** The prediction for one row as one score, whatever its dimension: an
    array of shape [()], [(1,)] or [(1, 1)]. *)
Definition prediction_score (pred : ndarray) : option cell :=
  match pred with
  | Arr0 s => Some s
  | Arr1 [s] => Some s
  | Arr2 1 [[s]] => Some s
  | _ => None
  end.

(** The model answers the row [row] with the one score [s]. *)
Definition yields (m : LoadedModel) (row : list cell) (s : cell) : Prop :=
  ∃ pred, predict m (reshape_1_row row) = Returned pred
          ∧ prediction_score pred = Some s.

(** The model answers the row [row] with an array of dimension 0. *)
Definition yields_scalar (m : LoadedModel) (row : list cell) : Prop :=
  ∃ x, predict m (reshape_1_row row) = Returned (Arr0 x).

(** The [if]/[else] in the body of the loop: what becomes of [result]
    when the prediction [pred] is added to it. *)
Definition accumulate (result : option ndarray) (pred : ndarray)
  : outcome ndarray :=
  match result with
  | None => Returned (np_array pred)
  | Some r => np_vstack r pred
  end.

(** Where the loop ends when [predict] returns [preds] on the rows it is
    given first and raises [e] on the next one: the number of calls of
    [predict] made and the exception that leaves the loop. The raising
    row is not reached when two of the predictions before it cannot be
    stacked. *)
Fixpoint loop_stop (result : option ndarray) (preds : list ndarray) (e : exn)
  : nat * exn :=
  match preds with
  | [] => (1, e)
  | pred :: rest =>
      match accumulate result pred with
      | Returned r =>
          let stop := loop_stop (Some r) rest e in (S stop.1, stop.2)
      | Raised e' => (1, e')
      end
  end.

(** The score that carries the row label [l] in a score column indexed
    0, 1, ..., or the missing value when no score carries that label. *)
Definition score_by_label (scores : list cell) (l : label) : cell :=
  match l with
  | LInt z =>
      if decide (0 ≤ z)%Z then default NaN (scores !! Z.to_nat z) else NaN
  | LStr _ => NaN
  end.

(** ** The initialisation hook *)

(** The registry entry that [get_model] finds: its [name] and [version]. *)
Record AmlModel : Type := { aml_name : string; aml_version : Z }.

(** The collaborators of [init], none of them part of this file:
    [utils.model_helper.get_model], which may also return [None],
    [Model.get_model_path] and [joblib.load]. *)
Context
  (get_model : string → option string → option string → option string →
               outcome (option AmlModel))
  (get_model_path : string → Z → outcome string)
  (joblib_load : string → outcome LoadedModel).

(** [amlmodel.name] and [amlmodel.version]: attribute access on what
    [get_model] returned. *)
Definition getattr_aml {A} (amlmodel : option AmlModel) (field : AmlModel → A)
    (field_name : string) : outcome A :=
  match amlmodel with
  | Some a => Returned (field a)
  | None => Raised (Exn AttributeError
      ("'NoneType' object has no attribute '" ++ field_name ++ "'"))
  end.

Definition init (argv : list string) : M unit :=
  try_except_Exception
    (print "Initializing batch scoring script...";;
     model_filter ← lift (parse_args argv);
     amlmodel ← lift (get_model (model_name model_filter)
                                (model_version model_filter)
                                (model_tag_name model_filter)
                                (model_tag_value model_filter));
     name ← lift (getattr_aml amlmodel aml_name "name");
     version ← lift (getattr_aml amlmodel aml_version "version");
     modelpath ← lift (get_model_path name version);
     m ← lift (joblib_load modelpath);
     assign_model m;;
     print ("Loaded model " ++ model_name model_filter))
    (λ ex, print ("Error: " ++ exn_str ex)).

(** The ways in which [init] can fail before [model] is assigned, with
    the exception of each: the resolver raises; the registry lookup
    raises; the lookup returns [None], so that reading its [name] raises;
    locating the artifact raises; loading it raises. *)
Inductive init_fails (argv : list string) : exn → Prop :=
  | fails_resolver e :
      parse_args argv = Raised e →
      init_fails argv e
  | fails_lookup f e :
      parse_args argv = Returned f →
      get_model (model_name f) (model_version f)
                (model_tag_name f) (model_tag_value f) = Raised e →
      init_fails argv e
  | fails_unresolved f :
      parse_args argv = Returned f →
      get_model (model_name f) (model_version f)
                (model_tag_name f) (model_tag_value f) = Returned None →
      init_fails argv
        (Exn AttributeError "'NoneType' object has no attribute 'name'")
  | fails_locate f a e :
      parse_args argv = Returned f →
      get_model (model_name f) (model_version f)
                (model_tag_name f) (model_tag_value f) = Returned (Some a) →
      get_model_path (aml_name a) (aml_version a) = Raised e →
      init_fails argv e
  | fails_load f a path e :
      parse_args argv = Returned f →
      get_model (model_name f) (model_version f)
                (model_tag_name f) (model_tag_value f) = Returned (Some a) →
      get_model_path (aml_name a) (aml_version a) = Returned path →
      joblib_load path = Raised e →
      init_fails argv e.

(** The state in which [init] leaves the worker when it has caught [e]. *)
Definition after_init_error (w : World) (e : exn) : World :=
  MkWorld (stdout w ++ ["Initializing batch scoring script...";
                        ("Error: " ++ exn_str e)%string])
          (model w) (predict_calls w).

End Scoring.

Arguments cell : clear implicits.
Arguments ndarray : clear implicits.
Arguments DataFrame : clear implicits.
Arguments LoadedModel : clear implicits.
Arguments World : clear implicits.
Arguments run_value : clear implicits.
Arguments M : clear implicits.

(** ** The pipeline builder *)

(** [PipelineParameter(_, default_value=" ")]: the value of each of the
    four parameters when the caller of the pipeline binds none. *)
Definition parameter_default : string := " ".

(** The [arguments] of the [ParallelRunStep] in [get_scoring_pipeline],
    with the values bound to the four pipeline parameters. *)
Definition scoring_step_arguments
    (model_name_param model_version_param
     model_tag_name_param model_tag_value_param : string) : list string :=
  ["--model_name"; model_name_param;
   "--model_version"; model_version_param;
   "--model_tag_name"; model_tag_name_param;
   "--model_tag_value"; model_tag_value_param].

(** The datastore lookup of the builder, [get_or_create_datastore]. The
    classes [Env], [Workspace] and [Datastore] are not part of these
    files: [Env] is taken with the four attributes the function reads,
    each an environment variable that may be unset; a workspace is taken
    as its dictionary [ws.datastores]; a datastore is left abstract. *)
Section Datastores.
Context {Datastore : Type}.

Record Env : Type := MkEnv {
  scoring_datastore_storage_name : option string;
  scoring_datastore_access_key : option string;
  scoring_datastore_input_container : option string;
  scoring_datastore_output_container : option string
}.

(** A call of [Datastore.register_azure_blob_container], by its keyword
    arguments apart from the workspace. *)
Record blob_registration : Type := MkBlobRegistration {
  datastore_name : string;
  account_name : option string;
  account_key : string;
  container_name : string
}.

Context (register_azure_blob_container : blob_registration → outcome Datastore).

(** The function returns or raises; the second component lists the
    registrations it asked for, for observation only. *)
Definition get_or_create_datastore (datastorename : option string)
    (ws_datastores : gmap string Datastore) (env : Env) (input : bool)
  : outcome Datastore * list blob_registration :=
  match datastorename with
  | None => (Raised (Exn ValueError "Datastore name is required."), [])
  | Some datastorename =>
      let containername :=
        if input then scoring_datastore_input_container env
        else scoring_datastore_output_container env in
      match ws_datastores !! datastorename with
      | Some datastore => (Returned datastore, [])
      | None =>
          match scoring_datastore_access_key env, containername with
          | Some key, Some container =>
              let call :=
                MkBlobRegistration datastorename
                  (scoring_datastore_storage_name env) key container in
              (register_azure_blob_container call, [call])
          | _, _ =>
              (Raised (Exn ValueError
                 ("No existing datastore named " ++ datastorename
                  ++ " nor was enough information supplied to create one.")),
               [])
          end
      end
  end.

End Datastores.

(** ** The registration script, [register_model.py] *)

Module Register.

(** [KeyError(key)], [TypeError(msg)] and [SystemExit(0)] as exceptions:
    the first two are subclasses of [Exception], the last one is not; the
    text is that of [str(ex)]. *)
Definition KeyError (key : string) : exn :=
  Exn OtherException ("'" ++ key ++ "'").
Definition TypeError (msg : string) : exn := Exn OtherException msg.
Definition SystemExit_0 : exn := Exn BaseExceptionOnly "0".

(** A line feed and a double quote. *)
Definition nl : string := String (ascii_of_nat 10) EmptyString.
Definition dq : string := String (ascii_of_nat 34) EmptyString.

(** [posixpath.join(a, b)] *)
Definition startswith_slash (s : string) : bool :=
  match s with
  | String c _ => Ascii.eqb c "/"
  | EmptyString => false
  end.

Fixpoint endswith_slash (s : string) : bool :=
  match s with
  | EmptyString => false
  | String c EmptyString => Ascii.eqb c "/"
  | String _ r => endswith_slash r
  end.

Definition os_path_join (a b : string) : string :=
  if startswith_slash b then b
  else if (String.length a =? 0) || endswith_slash a then a ++ b
  else a ++ "/" ++ b.

Section Registration.
Context {metric Dataset Pickled : Type}.

(** The value of a tag of a model: a text, or the value of a metric of
    the parent run. *)
Inductive tag_value : Type :=
  | TagStr (s : string)
  | TagMetric (v : metric).

(** What [AMLModel.register] returns, by the three attributes that are
    printed, each as [str] gives it. *)
Record RegisteredModel : Type := {
  reg_name : string;
  reg_description : string;
  reg_version : string
}.

(** [exp]: the experiment, by its [name]; its [workspace] is only handed
    on to the collaborators. *)
Record Experiment : Type := { exp_name : string }.

(** What the script leaves behind: the lines printed, the tracebacks
    printed and, for observation only, the calls of [AMLModel.register]
    with model name, model path, tags and dataset. *)
Inductive event : Type :=
  | Printed (s : string)
  | TracebackPrinted (e : exn)
  | RegisterCalled (model_name model_path : string)
                   (tags : gmap string tag_value) (dataset : Dataset).

(** A computation of the script: it extends the record of events and
    returns or raises. *)
Definition Script (A : Type) : Type := list event → outcome A * list event.

#[global] Instance Script_ret : MRet Script := λ A a log, (Returned a, log).
#[global] Instance Script_bind : MBind Script := λ A B k m log,
  match m log with
  | (Returned a, log') => k a log'
  | (Raised e, log') => (Raised e, log')
  end.

Definition call {A} (o : outcome A) : Script A := λ log, (o, log).
Definition emit (ev : event) : Script unit := λ log, (Returned (), log ++ [ev]).
Definition raise {A} (e : exn) : Script A := λ log, (Raised e, log).

(** The collaborators, none of them part of this file: [AMLModel.list]
    for a model name and a run id, [str] of the tuple built for a model
    that is already registered, [Dataset.get_by_id], [AMLModel.register]
    and [os.chdir("..")]; the workspace argument of the first, third and
    fourth is left out. *)
Context
  (AMLModel_list : string → string → outcome (list RegisteredModel))
  (already_registered : string → string → string)
  (Dataset_get_by_id : string → outcome Dataset)
  (AMLModel_register : string → string → gmap string tag_value → Dataset →
                       outcome RegisteredModel)
  (os_chdir_up : outcome unit).

Definition model_already_registered (model_name : string) (exp : Experiment)
    (run_id : string) : Script unit :=
  model_list ← call (AMLModel_list model_name run_id);
  if 1 <=? length model_list then
    let e := already_registered model_name run_id in
    emit (Printed e);;
    raise (Exn OtherException e)
  else emit (Printed "Model is not registered for this run.").

(** [try: body except Exception: traceback.print_exc(); print(...); raise] *)
Definition try_except_reraise {A} (body : Script A) : Script A := λ log,
  match body log with
  | (Returned a, log') => (Returned a, log')
  | (Raised ex, log') =>
      if isinstance_Exception ex
      then (Raised ex,
            log' ++ [TracebackPrinted ex; Printed "Model registration failed"])
      else (Raised ex, log')
  end.

Definition register_aml_model (model_path model_name : string)
    (model_tags : gmap string metric) (exp : Experiment)
    (run_id dataset_id : string)
    (build_id : string) (build_uri : option string) : Script unit :=
  try_except_reraise
    (let tagsValue : gmap string tag_value :=
       <["experiment_name" := TagStr (exp_name exp)]>
         (<["run_id" := TagStr run_id]>
            {["area" := TagStr "ml_pipeline"]}) in
     let tagsValue := (TagMetric <$> model_tags) ∪ tagsValue in
     tagsValue ←
       (if negb (String.eqb build_id "none") then
          model_already_registered model_name exp run_id;;
          let tagsValue := <["BuildId" := TagStr build_id]> tagsValue in
          mret (match build_uri with
                | Some build_uri => <["BuildUri" := TagStr build_uri]> tagsValue
                | None => tagsValue
                end)
        else mret tagsValue);
     dataset ← call (Dataset_get_by_id dataset_id);
     emit (RegisterCalled model_name model_path tagsValue dataset);;
     model ← call (AMLModel_register model_name model_path tagsValue dataset);
     call os_chdir_up;;
     emit (Printed ("Model registered: " ++ reg_name model ++ " " ++ nl
                    ++ "Model Description: " ++ reg_description model
                    ++ " " ++ nl
                    ++ "Model Version: " ++ reg_version model))).

(** The parsed command line of [main]: [--run_id] and [--step_input] are
    [None] when not given, [--model_name] has a default. *)
Record Args : Type := MkArgs {
  args_run_id : option string;
  args_model_name : string;
  args_step_input : option string
}.

(** What [main] reads from its surroundings: the id of the parent run,
    the experiment, the content of [parameters.json] (an object of
    objects of lists of texts) or the exception of opening and parsing
    it, the metrics and the tags of the parent run, [joblib.load], which
    may yield [None], and [str] of the dictionary of tags. *)
Context
  (parent_id : string)
  (exp : Experiment)
  (parameters_json : outcome (gmap string (gmap string (list string))))
  (parent_metrics : gmap string metric)
  (parent_tags : gmap string string)
  (joblib_load : string → outcome (option Pickled))
  (tags_repr : gmap string string → string).

(** The loop [for tag in register_args["tags"]], [model_tags] being the
    dictionary filled so far. *)
Fixpoint collect_model_tags (tags : list string)
    (model_tags : gmap string metric) : Script (gmap string metric) :=
  match tags with
  | [] => mret model_tags
  | tag :: rest =>
      match parent_metrics !! tag with
      | Some mtag => collect_model_tags rest (<[tag := mtag]> model_tags)
      | None =>
          emit (Printed ("Could not find " ++ tag
                         ++ " metric on parent run."));;
          collect_model_tags rest model_tags
      end
  end.

(** [parent_tags[key]] under [except KeyError], which prints the two
    lines about the missing tag and yields [None]. *)
Definition tag_or_None (key : string) : Script (option string) :=
  match parent_tags !! key with
  | Some v => mret (Some v)
  | None =>
      emit (Printed (key ++ " tag not found on parent run."));;
      emit (Printed ("Tags present: " ++ tags_repr parent_tags));;
      mret None
  end.

Definition main (args : Args) : Script unit :=
  let run_id := "amlcompute" in
  let run_id := match args_run_id args with
                | Some r => r
                | None => run_id
                end in
  let run_id := if String.eqb run_id "amlcompute" then parent_id else run_id in
  let model_name := args_model_name args in
  let model_path := args_step_input args in
  emit (Printed "Getting registration parameters");;
  pars ← call parameters_json;
  register_args ←
    match pars !! "registration" with
    | Some register_args => mret register_args
    | None =>
        emit (Printed "Could not load registration values from file");;
        mret {["tags" := []]}
    end;
  tags ← match register_args !! "tags" with
          | Some tags => mret tags
          | None => raise (KeyError "tags")
          end;
  model_tags ← collect_model_tags tags ∅;
  model_path ←
    match model_path with
    | Some p => mret p
    | None =>
        raise (TypeError ("can only concatenate str (not " ++ dq ++ "NoneType"
                          ++ dq ++ ") to str"))
    end;
  emit (Printed ("Loading model from " ++ model_path));;
  let model_file := os_path_join model_path model_name in
  model ← call (joblib_load model_file);
  build_id ← tag_or_None "BuildId";
  build_uri ← tag_or_None "BuildUri";
  match model with
  | Some _ =>
      dataset_id ← match parent_tags !! "dataset_id" with
                    | Some d => mret d
                    | None => raise (KeyError "dataset_id")
                    end;
      match build_id with
      | None =>
          register_aml_model model_file model_name model_tags exp run_id
                             dataset_id "none" None
      | Some build_id =>
          match build_uri with
          | None =>
              register_aml_model model_file model_name model_tags exp run_id
                                 dataset_id build_id None
          | Some build_uri =>
              register_aml_model model_file model_name model_tags exp run_id
                                 dataset_id build_id (Some build_uri)
          end
      end
  | None =>
      emit (Printed "Model not found. Skipping model registration.");;
      raise SystemExit_0
  end.

End Registration.

Arguments tag_value : clear implicits.
Arguments event : clear implicits.
Arguments Script : clear implicits.

(** The tags of a registration read by precedence: the build tags, set
    only for a build id other than ['none'], come before the metrics of
    the parent run, and these before the three fixed tags. *)
Definition tag_by_precedence {metric : Type} (model_tags : gmap string metric)
    (exp : Experiment) (run_id build_id : string) (build_uri : option string)
    (k : string) : option (tag_value metric) :=
  let build := negb (String.eqb build_id "none") in
  if build && String.eqb k "BuildId" then Some (TagStr build_id)
  else
    match (if build && String.eqb k "BuildUri" then build_uri else None) with
    | Some uri => Some (TagStr uri)
    | None =>
        match model_tags !! k with
        | Some v => Some (TagMetric v)
        | None =>
            if String.eqb k "experiment_name" then Some (TagStr (exp_name exp))
            else if String.eqb k "run_id" then Some (TagStr run_id)
            else if String.eqb k "area" then Some (TagStr "ml_pipeline")
            else None
        end
    end.

(** The steps of [register_aml_model] that can raise, with the exception
    of each. For a build id other than ['none'], [AMLModel.list] raises,
    or it finds a model, which makes [model_already_registered] raise.
    Otherwise [Dataset.get_by_id] raises; or [AMLModel.register], called
    with the tags read by precedence and the dataset found, raises; or
    [os.chdir] raises after the registration. *)
Section RegistrationFailures.
Context {metric Dataset : Type}.
Context
  (AMLModel_list : string → string → outcome (list RegisteredModel))
  (already_registered : string → string → string)
  (Dataset_get_by_id : string → outcome Dataset)
  (AMLModel_register : string → string → gmap string (tag_value metric) →
                       Dataset → outcome RegisteredModel)
  (os_chdir_up : outcome unit).

(** The check of [model_already_registered] is passed or not made. *)
Definition not_yet_registered (model_name run_id build_id : string) : Prop :=
  build_id = "none" ∨ AMLModel_list model_name run_id = Returned [].

Inductive register_fails (model_path model_name : string)
    (model_tags : gmap string metric) (exp : Experiment)
    (run_id dataset_id build_id : string) (build_uri : option string)
  : exn → Prop :=
  | list_raises e :
      build_id ≠ "none" →
      AMLModel_list model_name run_id = Raised e →
      register_fails model_path model_name model_tags exp
                     run_id dataset_id build_id build_uri e
  | model_found found others :
      build_id ≠ "none" →
      AMLModel_list model_name run_id = Returned (found :: others) →
      register_fails model_path model_name model_tags exp
                     run_id dataset_id build_id build_uri
                     (Exn OtherException (already_registered model_name run_id))
  | dataset_raises e :
      not_yet_registered model_name run_id build_id →
      Dataset_get_by_id dataset_id = Raised e →
      register_fails model_path model_name model_tags exp
                     run_id dataset_id build_id build_uri e
  | register_raises tags dataset e :
      not_yet_registered model_name run_id build_id →
      Dataset_get_by_id dataset_id = Returned dataset →
      (∀ k, tags !! k
            = tag_by_precedence model_tags exp run_id build_id build_uri k) →
      AMLModel_register model_name model_path tags dataset = Raised e →
      register_fails model_path model_name model_tags exp
                     run_id dataset_id build_id build_uri e
  | chdir_raises tags dataset model e :
      not_yet_registered model_name run_id build_id →
      Dataset_get_by_id dataset_id = Returned dataset →
      (∀ k, tags !! k
            = tag_by_precedence model_tags exp run_id build_id build_uri k) →
      AMLModel_register model_name model_path tags dataset = Returned model →
      os_chdir_up = Raised e →
      register_fails model_path model_name model_tags exp
                     run_id dataset_id build_id build_uri e.

End RegistrationFailures.

(** The line printed after a registration. *)
Definition registered_message (model : RegisteredModel) : string :=
  "Model registered: " ++ reg_name model ++ " " ++ nl
  ++ "Model Description: " ++ reg_description model ++ " " ++ nl
  ++ "Model Version: " ++ reg_version model.

(** [log'] extends [log] by printed lines only. *)
Definition only_prints {metric Dataset : Type}
    (log log' : list (event metric Dataset)) : Prop :=
  ∃ printed : list string, log' = log ++ (Printed <$> printed).

(** The tags of [parameters.json] that [main] asks the parent run for:
    those of the entry [registration], none when there is no such entry;
    [None] when the entry has no [tags]. *)
Definition requested_tags (pars : gmap string (gmap string (list string)))
  : option (list string) :=
  match pars !! "registration" with
  | Some register_args => register_args !! "tags"
  | None => Some []
  end.

(** The run id under which [main] registers. *)
Definition effective_run_id (parent_id : string) (args : Args) : string :=
  match args_run_id args with
  | Some r => if String.eqb r "amlcompute" then parent_id else r
  | None => parent_id
  end.

End Register.

(** ** Sample data *)

(** One rendering of the two library texts, for the samples. *)
#[global] Instance sample_texts : LibraryTexts := {|
  concatenate_mismatch ca cb :=
    ("all the input array dimensions except for the concatenation axis must match exactly, but along dimension 1, the array at index 0 has size "
     +:+ pretty ca +:+ " and the array at index 1 has size " +:+ pretty cb);
  Index_str labels :=
    ("Index(["
     +:+ String.concat ", "
           ((λ l, match l with
                  | LStr s => "'" +:+ s +:+ "'"
                  | LInt z => pretty z
                  end) <$> labels)
     +:+ "], dtype='object')")
|}.

(** A predictor that answers 7 on every row, as an array of shape [(1,)]. *)
Definition constant_model : LoadedModel Z :=
  {| predict := λ _, Returned (Arr1 [Val 7%Z]) |}.

(** A predictor that raises on the row [[2]] and answers 7 elsewhere. *)
Definition failing_model : LoadedModel Z :=
  {| predict := λ x,
       match x with
       | Arr2 _ [[Val 2%Z]] => Raised (Exn OtherException "cannot score this row")
       | _ => Returned (Arr1 [Val 7%Z])
       end |}.

(** A predictor that answers 7 on every row, as an array of shape [()]. *)
Definition scalar_model : LoadedModel Z :=
  {| predict := λ _, Returned (Arr0 (Val 7%Z)) |}.

(** A predictor with two outputs for every row. *)
Definition two_output_model : LoadedModel Z :=
  {| predict := λ _, Returned (Arr2 2 [[Val 7%Z; Val 8%Z]]) |}.

(** A predictor that answers the row [[1]] with one output, raises on
    the row [[2]] and answers every other row with two outputs. *)
Definition uneven_model : LoadedModel Z :=
  {| predict := λ x,
       match x with
       | Arr2 _ [[Val 1%Z]] => Returned (Arr1 [Val 7%Z])
       | Arr2 _ [[Val 2%Z]] => Raised (Exn OtherException "cannot score this row")
       | _ => Returned (Arr1 [Val 7%Z; Val 8%Z])
       end |}.

(** A predictor interrupted from the keyboard on every row. *)
Definition interrupted_model : LoadedModel Z :=
  {| predict := λ _, Raised (Exn BaseExceptionOnly "KeyboardInterrupt") |}.

(** A worker that has loaded [m] and has printed nothing yet. *)
Definition ready (m : LoadedModel Z) : World Z := MkWorld [] (Some m) [].

(** A freshly started worker. *)
Definition fresh : World Z := MkWorld [] None [].

(** Three rows under the default labels 0, 1, 2. *)
Definition batch_default : DataFrame Z :=
  DF [LInt 0; LInt 1; LInt 2] [LStr "f1"]
     [[Val 1%Z]; [Val 2%Z]; [Val 3%Z]].

(** Two rows that kept the labels 2 and 3 of a larger table. *)
Definition batch_shifted : DataFrame Z :=
  DF [LInt 2; LInt 3] [LStr "f1"] [[Val 1%Z]; [Val 3%Z]].

(** One row of a table that already has a column named [score]. *)
Definition batch_with_score : DataFrame Z :=
  DF [LInt 0] [LStr "f1"; LStr "score"] [[Val 1%Z; Val 0%Z]].

(** A single row under the default label 0. *)
Definition batch_one_row : DataFrame Z :=
  DF [LInt 0] [LStr "f1"] [[Val 1%Z]].

(** Three rows, the failing one last, after two that [uneven_model]
    answers with arrays that cannot be stacked. *)
Definition batch_uneven : DataFrame Z :=
  DF [LInt 0; LInt 1; LInt 2] [LStr "f1"]
     [[Val 1%Z]; [Val 3%Z]; [Val 2%Z]].

(** A batch without rows. *)
Definition batch_empty : DataFrame Z := DF [] [LStr "f1"] [].

(** A registry that knows no model, and an artifact store that is never
    reached. *)
Definition empty_registry
  : string → option string → option string → option string →
    outcome (option AmlModel) :=
  λ _ _ _ _, Returned None.
Definition no_path : string → Z → outcome string :=
  λ _ _, Raised (Exn OtherException "no such model").
Definition no_load : string → outcome (LoadedModel Z) :=
  λ _, Raised (Exn OtherException "no such file").

(** A worker whose registry, artifact store and loader all answer. *)
Definition one_model_registry
  : string → option string → option string → option string →
    outcome (option AmlModel) :=
  λ name _ _ _, Returned (Some {| aml_name := name; aml_version := 3 |}).
Definition one_path : string → Z → outcome string :=
  λ name _, Returned ("azureml-models/" ++ name)%string.
Definition constant_load : string → outcome (LoadedModel Z) :=
  λ _, Returned constant_model.

(** An environment with a storage account and an input container only,
    and a registration that answers with the name it was given. *)
Definition input_only_env : Env :=
  MkEnv (Some "store") (Some "key") (Some "in") None.
Definition echo_registration : blob_registration → outcome string :=
  λ call, Returned (datastore_name call).

(** A registration run: one metric, a dataset tag, an empty registry. *)
Module RegisterSample.
Import Register.

Definition nothing_listed : string → string → outcome (list RegisteredModel) :=
  λ _ _, Returned [].
Definition one_listed : string → string → outcome (list RegisteredModel) :=
  λ name _, Returned [{| reg_name := name; reg_description := "None";
                         reg_version := "1" |}].
Definition tuple_text : string → string → string :=
  λ name run_id, ("(" ++ name ++ ", " ++ run_id ++ ")")%string.
Definition dataset_by_id : string → outcome string := λ id, Returned id.
Definition dataset_missing : string → outcome string :=
  λ _, Raised (Exn OtherException "dataset not found").
Definition registering : string → string → gmap string (tag_value Z) → string →
                         outcome RegisteredModel :=
  λ name _ _ _, Returned {| reg_name := name; reg_description := "None";
                            reg_version := "2" |}.
Definition chdir_done : outcome unit := Returned ().
Definition experiment : Experiment := {| exp_name := "exp" |}.
Definition parameters : outcome (gmap string (gmap string (list string))) :=
  Returned {["registration" := {["tags" := ["mse"; "r2"]]}]}.
Definition metrics : gmap string Z := {["mse" := 4%Z]}.
Definition tags_with_dataset : gmap string string := {["dataset_id" := "ds-1"]}.
Definition tags_without_dataset : gmap string string := {["BuildId" := "42"]}.
Definition load_some : string → outcome (option unit) := λ _, Returned (Some ()).
Definition load_none : string → outcome (option unit) := λ _, Returned None.
Definition dict_text : gmap string string → string := λ _, "{}".
Definition arguments : Args := MkArgs None "ml_model.pkl" (Some "outputs").

End RegisterSample.
(** * Properties *)

(** ** The resolver on sample vectors *)

Example parse_args_name_only :
  parse_args ["score.py"; "--model_name"; "m"] =
  Returned (MkFilter "m" None None None).
Proof. reflexivity. Qed.

Example parse_args_all_four :
  parse_args ["score.py"; "--model_name"; "m"; "--model_version"; " ";
              "--model_tag_name"; "k"; "--model_tag_value"; "v1"] =
  Returned (MkFilter "m" None (Some "k") (Some "v1")).
Proof. reflexivity. Qed.

(** A recognised flag in final position has no token after it. *)
Example parse_args_trailing_flag :
  parse_args ["score.py"; "--model_name"; "m"; "--model_version"] =
  Raised index_out_of_range.
Proof. reflexivity. Qed.

(** Of several occurrences of a flag the first one counts. *)
Example parse_args_first_occurrence :
  parse_args ["score.py"; "--model_name"; "m"; "--model_name"; "n";
              "--model_tag_name"; "k"; "--model_tag_name"; "";
              "--model_tag_value"; "v1"] =
  Returned (MkFilter "m" None (Some "k") (Some "v1")).
Proof. reflexivity. Qed.

(** [strip] removes the whitespace at both ends only. *)
Example strip_examples :
  strip "  v1 " = "v1" ∧ strip " " = "" ∧ strip "a b" = "a b".
Proof. done. Qed.

(** ** Lemmas on [strip] *)

Lemma lstrip_empty_iff s : lstrip s = "" ↔ whitespace_only s = true.
Proof.
  induction s as [|c r IH]; simpl; [done|].
  destruct (isspace c); simpl; [exact IH|]. split; discriminate.
Qed.

Lemma rstrip_empty_iff s : rstrip s = "" ↔ whitespace_only s = true.
Proof.
  induction s as [|c r IH]; simpl; [done|].
  destruct (rstrip r) eqn:Hr.
  - destruct (isspace c); simpl.
    + split; [intros _; by apply IH | done].
    + split; discriminate.
  - split; [discriminate|].
    intros [_ Hw]%andb_true_iff. apply IH in Hw. discriminate.
Qed.

Lemma lstrip_whitespace_only s :
  whitespace_only (lstrip s) = true → lstrip s = "".
Proof.
  induction s as [|c r IH]; simpl; [done|].
  destruct (isspace c) eqn:Hc; [exact IH|].
  simpl. rewrite Hc. discriminate.
Qed.

Lemma strip_blank s :
  (String.length (strip s) =? 0)%nat = whitespace_only s.
Proof.
  unfold strip. destruct (whitespace_only s) eqn:Hw.
  - apply lstrip_empty_iff in Hw. by rewrite Hw.
  - destruct (rstrip (lstrip s)) eqn:Hr; [|done].
    apply rstrip_empty_iff, lstrip_whitespace_only, lstrip_empty_iff in Hr.
    congruence.
Qed.

(** ** Lemmas on the comprehension *)

Lemma flag_params_from_scan flag pre items :
  flag_params_from (pre ++ items) flag (length pre) items = scan flag items.
Proof.
  revert pre. induction items as [|itm rest IH]; intros pre; simpl; [done|].
  specialize (IH (pre ++ [itm])).
  rewrite <- app_assoc, length_app in IH. simpl in IH.
  replace (length pre + 1) with (S (length pre)) in * by lia.
  rewrite IH.
  destruct (String.eqb itm flag); [|done].
  unfold getitem.
  rewrite (list_lookup_middle pre rest itm (length pre)) by done.
  rewrite lookup_app_r by lia.
  replace (S (length pre) - length pre) with 1 by lia.
  simpl. by destruct rest.
Qed.

Lemma flag_params_scan argv flag : flag_params argv flag = scan flag argv.
Proof. exact (flag_params_from_scan flag [] argv). Qed.

Lemma scan_absent flag items : flag ∉ items → scan flag items = Returned [].
Proof.
  induction items as [|itm rest IH]; simpl; [done|].
  intros Hn. apply not_elem_of_cons in Hn as [Hne Hn].
  destruct (String.eqb_spec itm flag); [congruence|]. by apply IH.
Qed.

Lemma value_after_absent flag items : flag ∉ items → value_after flag items = None.
Proof.
  induction items as [|itm rest IH]; simpl; [done|].
  intros Hn. apply not_elem_of_cons in Hn as [Hne Hn].
  destruct (String.eqb_spec itm flag); [congruence|]. by apply IH.
Qed.

Lemma value_after_present flag items :
  flag ∈ items → last items ≠ Some flag → is_Some (value_after flag items).
Proof.
  induction items as [|itm rest IH]; simpl; [by intros ?%elem_of_nil|].
  intros Hin Hlast.
  destruct (String.eqb_spec itm flag) as [->|Hne].
  - destruct rest; [done|]. by eexists.
  - apply elem_of_cons in Hin as [?|Hin]; [congruence|].
    apply IH; [done|]. destruct rest; [by apply elem_of_nil in Hin|done].
Qed.

(** With the flag never in final position the comprehension returns, and
    its first pair holds the value after the first occurrence. *)
Lemma scan_paired flag items :
  last items ≠ Some flag →
  ∃ ps, scan flag items = Returned ps
        ∧ head ps = (λ v, (flag, v)) <$> value_after flag items.
Proof.
  induction items as [|itm rest IH]; simpl; intros Hlast; [by exists []|].
  destruct rest as [|b rest'].
  - destruct (String.eqb_spec itm flag) as [->|Hne]; [done|]. by exists [].
  - destruct IH as (ps & Hps & Hhd); [done|].
    destruct (String.eqb_spec itm flag) as [->|Hne].
    + rewrite Hps. by exists ((flag, b) :: ps).
    + by exists ps.
Qed.

Lemma head_None_nil {A} (l : list A) : head l = None → l = [].
Proof. by destruct l. Qed.

Lemma head_Some_cons {A} (l : list A) x : head l = Some x → ∃ l', l = x :: l'.
Proof. destruct l; [done|]. intros [= ->]. by eexists. Qed.

(** The comprehension for one flag, under [paired]. *)
Lemma flag_params_paired argv flag :
  paired argv → flag ∈ recognised_flags →
  ∃ ps, flag_params argv flag = Returned ps
        ∧ match value_after flag argv with
          | Some v => ∃ ps', ps = (flag, v) :: ps'
          | None => ps = []
          end.
Proof.
  intros Hp Hf. rewrite flag_params_scan.
  destruct (scan_paired flag argv (proj1 (Forall_forall _ _) Hp flag Hf))
    as (ps & -> & Hhd).
  exists ps. split; [done|].
  destruct (value_after flag argv); simpl in Hhd.
  - by apply head_Some_cons.
  - by apply head_None_nil.
Qed.

(** ** What the resolver computes on a paired vector *)

Lemma parse_args_paired argv :
  paired argv →
  parse_args argv =
  match value_after "--model_name" argv with
  | None => Raised model_name_required
  | Some n =>
      let ver := unless_blank (value_after "--model_version" argv) in
      let tag := unless_blank (value_after "--model_tag_name" argv) in
      match value_after "--model_tag_value" argv with
      | None => Returned (MkFilter n ver tag None)
      | Some v =>
          match value_after "--model_tag_name" argv with
          | None => Raised index_out_of_range
          | Some k =>
              Returned (MkFilter n ver tag
                          (if whitespace_only k then None else Some v))
          end
      end
  end.
Proof.
  intros Hp. unfold parse_args.
  destruct (flag_params_paired argv "--model_name" Hp) as (pn & -> & Hn);
    [unfold recognised_flags; by repeat constructor|].
  destruct (flag_params_paired argv "--model_version" Hp) as (pv & Hpv & Hv);
    [unfold recognised_flags; by repeat constructor|].
  destruct (flag_params_paired argv "--model_tag_name" Hp) as (pk & Hpk & Hk);
    [unfold recognised_flags; by repeat constructor|].
  destruct (flag_params_paired argv "--model_tag_value" Hp) as (pt & Hpt & Ht);
    [unfold recognised_flags; by repeat constructor|].
  destruct (value_after "--model_name" argv) as [n|];
    [destruct Hn as (? & ->)|subst pn; done].
  cbn -[flag_params strip]. rewrite Hpv.
  destruct (value_after "--model_version" argv) as [ver|];
    [destruct Hv as (? & ->)|subst pv];
  cbn -[flag_params strip]; rewrite ?strip_blank, Hpk;
  (destruct (value_after "--model_tag_name" argv) as [k|];
    [destruct Hk as (? & ->)|subst pk]);
  cbn -[flag_params strip]; rewrite ?strip_blank;
  (destruct (value_after "--model_tag_value" argv) as [v|];
    [destruct Ht as (? & ->)|subst pt]);
  repeat (cbn -[flag_params strip];
          rewrite ?strip_blank, ?Hpt;
          try match goal with
              | |- context [whitespace_only ?s] => destruct (whitespace_only s)
              end);
  done.
Qed.

Lemma value_after_Some_elem flag argv v :
  value_after flag argv = Some v → flag ∈ argv.
Proof.
  intros Hv. destruct (decide (flag ∈ argv)) as [|Hn]; [done|].
  by rewrite (value_after_absent _ _ Hn) in Hv.
Qed.

(** Every exception that leaves the resolver is an [Exception]. *)
Lemma parse_args_raises_Exception argv e :
  parse_args argv = Raised e → isinstance_Exception e = true.
Proof.
  assert (Hget : ∀ (l : list (string * string)) i e',
            getitem l i = Raised e' → isinstance_Exception e' = true).
  { intros l i e'. unfold getitem. destruct (l !! i); [done|]. by intros [= <-]. }
  assert (Hscan : ∀ flag items e',
            scan flag items = Raised e' → isinstance_Exception e' = true).
  { intros flag items e'. induction items as [|itm rest IH]; simpl; [done|].
    destruct (String.eqb itm flag); [|done].
    unfold getitem. destruct (rest !! 0); simpl; [|by intros [= <-]].
    destruct (scan flag rest); simpl; [discriminate|]. intros [= <-]. by apply IH. }
  unfold parse_args. rewrite !flag_params_scan.
  repeat match goal with
  | |- Raised _ = Raised _ → _ => intros [= <-]; done
  | |- Returned _ = Raised _ → _ => discriminate
  | |- context [scan ?f ?l] =>
      let H := fresh "Hs" in
      destruct (scan f l) eqn:H; [|apply Hscan in H]; cbn -[strip scan]
  | |- context [getitem ?l ?i] =>
      let H := fresh "Hg" in
      destruct (getitem l i) eqn:H; [|apply Hget in H]; cbn -[strip scan]
  | |- context [if ?b then _ else _] => destruct b; cbn -[strip scan]
  end.
Qed.

(** Without the token [--model_name] the first comprehension is empty. *)
Lemma resolver_raises_without_model_name argv :
  "--model_name" ∉ argv → parse_args argv = Raised model_name_required.
Proof.
  intros Hn. unfold parse_args.
  rewrite (flag_params_scan argv "--model_name"), (scan_absent "--model_name") by done.
  reflexivity.
Qed.

(** ** Claims on the Argument Resolver *)

(** C7: for every argument vector in which the token [--model_name] does
    not occur, [parse_args] raises the [ValueError] saying that the model
    name is required, and returns no filter. *)
Theorem parse_args_missing_model_name (argv : list string) :
  "--model_name" ∉ argv →
  parse_args argv = Raised model_name_required
  ∧ exn_cls model_name_required = ValueError
  ∧ ∀ f, parse_args argv ≠ Returned f.
Proof.
  intros Hn.
  rewrite (resolver_raises_without_model_name argv Hn).
  split; [done|]. split; [done|]. intros f. discriminate.
Qed.

(** C9, evaluated on the vector the pipeline passes when no parameter is
    bound (every value is the default of one space): the resolver returns
    a filter whose name is that blank string. *)
Theorem parse_args_blank_model_name :
  ∃ f, parse_args ["driver.py"; "--model_name"; " "; "--model_version"; " ";
                   "--model_tag_name"; " "; "--model_tag_value"; " "]
       = Returned f
       ∧ model_name f = " "
       ∧ whitespace_only (model_name f) = true.
Proof. by eexists. Qed.

(** The same with the empty string for a name. *)
Lemma parse_args_empty_model_name :
  parse_args ["driver.py"; "--model_name"; ""] = Returned (MkFilter "" None None None).
Proof. done. Qed.

(** C5, as amended: on a paired vector that gives [--model_name] a value,
    contains [--model_tag_name] and does not contain [--model_tag_value],
    the resolver returns normally; the tag value, which was not supplied,
    is absent, and the tag name is the supplied token unless that is
    blank. *)
Theorem parse_args_tag_name_without_tag_value (argv : list string) (n k : string) :
  paired argv →
  value_after "--model_name" argv = Some n →
  value_after "--model_tag_name" argv = Some k →
  "--model_tag_value" ∉ argv →
  parse_args argv =
  Returned (MkFilter n (unless_blank (value_after "--model_version" argv))
                     (if whitespace_only k then None else Some k) None).
Proof.
  intros Hp Hn Hk Ht. rewrite (parse_args_paired _ Hp), Hn, Hk.
  by rewrite (value_after_absent _ _ Ht).
Qed.

(** C6: on a paired vector that gives [--model_name] a value, gives
    [--model_tag_name] a blank value and gives [--model_tag_value] any
    value, non-blank ones included, the resolver returns a filter whose
    tag value is [None]. *)
Theorem parse_args_blank_tag_name_suppresses_tag_value
    (argv : list string) (n k v : string) :
  paired argv →
  value_after "--model_name" argv = Some n →
  value_after "--model_tag_name" argv = Some k →
  whitespace_only k = true →
  value_after "--model_tag_value" argv = Some v →
  ∃ f, parse_args argv = Returned f
       ∧ model_tag_value f = None
       ∧ model_tag_name f = None
       ∧ model_name f = n.
Proof.
  intros Hp Hn Hk Hb Hv. rewrite (parse_args_paired _ Hp), Hn, Hk, Hv.
  simpl. rewrite Hb. by eexists.
Qed.

(** The check is on the tag name alone: below a non-blank tag name even a
    blank tag value is passed on. *)
Lemma parse_args_tag_value_not_self_checked (argv : list string) (n k v : string) :
  paired argv →
  value_after "--model_name" argv = Some n →
  value_after "--model_tag_name" argv = Some k →
  whitespace_only k = false →
  value_after "--model_tag_value" argv = Some v →
  ∃ f, parse_args argv = Returned f ∧ model_tag_value f = Some v.
Proof.
  intros Hp Hn Hk Hb Hv. rewrite (parse_args_paired _ Hp), Hn, Hk, Hv.
  simpl. rewrite Hb. by eexists.
Qed.

(** ** The scoring hook *)

Section ScoringProperties.
Context {value : Type} {texts : LibraryTexts}.
Implicit Types (w : World value) (m : LoadedModel value).
Implicit Types (mini_batch : DataFrame value) (rows : list (list (cell value))).

Lemma after_calls_nil w : after_calls w [] = w.
Proof. destruct w. unfold after_calls. simpl. by rewrite app_nil_r. Qed.

Lemma after_calls_cons w row rows :
  after_calls (after_calls w [row]) rows = after_calls w (row :: rows).
Proof. unfold after_calls. simpl. by rewrite <- app_assoc. Qed.

Lemma model_predict_loaded w m x :
  model w = Some m →
  model_predict x w
  = (predict m x, MkWorld (stdout w) (model w) (predict_calls w ++ [x])).
Proof. intros Hm. unfold model_predict. by rewrite Hm. Qed.

Lemma iterrows_values mini_batch :
  aligned mini_batch → (iterrows mini_batch).*2 = df_values mini_batch.
Proof.
  unfold aligned, nrows, iterrows. intros Hlen. apply snd_zip. lia.
Qed.

Lemma iterrows_empty mini_batch : nrows mini_batch = 0 → iterrows mini_batch = [].
Proof.
  unfold nrows, iterrows. by intros ->%length_zero_iff_nil.
Qed.

(** C8: for every batch with zero rows, [run] returns the empty list; it
    does not raise, and the state of the worker is untouched, so nothing
    was printed and [predict] was not called. This holds whether or not a
    model is loaded. *)
Theorem run_empty_batch mini_batch w :
  nrows mini_batch = 0 →
  run mini_batch w = (Returned EmptyList, w).
Proof.
  intros Hn. unfold run, try_except_Exception.
  by rewrite (iterrows_empty _ Hn).
Qed.

Lemma np_vstack_raises_Exception (a b : ndarray value) e :
  np_vstack a b = Raised e → isinstance_Exception e = true.
Proof.
  unfold np_vstack. destruct (atleast_2d a), (atleast_2d b).
  case_match; [discriminate|]. by intros [= <-].
Qed.

Lemma accumulate_raises_Exception result (p : ndarray value) e :
  accumulate result p = Raised e → isinstance_Exception e = true.
Proof.
  destruct result as [r|]; simpl; [apply np_vstack_raises_Exception|discriminate].
Qed.

(** *** A batch on which [predict] raises *)

Lemma loop_stop_bounds result (preds : list (ndarray value)) e :
  1 ≤ (loop_stop result preds e).1 ≤ S (length preds).
Proof.
  revert result. induction preds as [|p preds IH]; intros result; simpl; [lia|].
  destruct (accumulate result p) as [r|e']; simpl; [|lia].
  specialize (IH (Some r)). lia.
Qed.

Lemma loop_stop_Exception result (preds : list (ndarray value)) e :
  isinstance_Exception e = true →
  isinstance_Exception (loop_stop result preds e).2 = true.
Proof.
  intros He. revert result.
  induction preds as [|p preds IH]; intros result; simpl; [done|].
  destruct (accumulate result p) as [r|e'] eqn:Hacc; simpl; [apply IH|].
  by eapply accumulate_raises_Exception.
Qed.

(** Predictions of one width are stacked without an error, so that the
    loop reaches the row on which [predict] raises. *)
Lemma loop_stop_uniform c result (preds : list (ndarray value)) e :
  match result with
  | Some r => (atleast_2d r).1 = c
  | None => True
  end →
  Forall (λ p, (atleast_2d p).1 = c) preds →
  loop_stop result preds e = (S (length preds), e).
Proof.
  intros Hres Hall. revert result Hres.
  induction Hall as [|p preds Hp _ IH]; intros result Hres; simpl; [done|].
  destruct result as [r|]; simpl.
  - unfold np_vstack.
    destruct (atleast_2d r) as [ca ra], (atleast_2d p) as [cb rb].
    simpl in Hres, Hp. subst ca cb. rewrite Nat.eqb_refl.
    by rewrite (IH (Some (Arr2 c (ra ++ rb)))).
  - unfold np_array. by rewrite (IH (Some p)).
Qed.

(** The loop up to the row on which [predict] raises. *)
Lemma score_rows_stop m before preds l sample after e result w :
  model w = Some m →
  Forall2 (λ r p, predict m (reshape_1_row r.2) = Returned p) before preds →
  predict m (reshape_1_row sample) = Raised e →
  score_rows (before ++ (l, sample) :: after) result w
  = (Raised (loop_stop result preds e).2,
     after_calls w (take (loop_stop result preds e).1
                         (before ++ (l, sample) :: after).*2)).
Proof.
  intros Hm Hbefore Hraise. revert result w Hm.
  induction Hbefore as [|[l0 s0] p before preds Hp _ IH]; intros result w Hm.
  - simpl. unfold mbind, M_bind.
    by rewrite (model_predict_loaded _ _ _ Hm), Hraise.
  - simpl. unfold mbind at 1, M_bind at 1.
    rewrite (model_predict_loaded _ _ _ Hm). simpl in Hp. rewrite Hp.
    set (w1 := MkWorld _ _ _).
    assert (Hw1 : w1 = after_calls w [s0]) by done.
    assert (Hm1 : model w1 = Some m) by done.
    unfold mbind at 1, M_bind at 1.
    assert (Hstep :
      (match result with
       | Some r => lift (np_vstack r p)
       | None => mret (np_array p)
       end) w1 = (accumulate result p, w1)) by (by destruct result).
    rewrite Hstep.
    destruct (accumulate result p) as [r'|e'] eqn:Hacc; simpl; [|done].
    by rewrite (IH (Some r') w1 Hm1), Hw1, after_calls_cons.
Qed.

(** C3: when [predict] raises an [Exception] on a row of the batch, the
    first such row being [(l, sample)] and [preds] the predictions for
    the rows before it, the hook returns [None] without raising, prints
    one line, the text of the exception that left the loop, and has
    called [predict] on the first rows of the batch, in order, and on no
    row after the raising one. Where the loop was left is told by
    [loop_stop]: at the raising row, with its exception [e], whenever
    the predictions before it are all of one width; at an earlier row
    only when [np.vstack] refused the prediction for that row. *)
Theorem run_predict_raises mini_batch w m before preds l sample after e :
  model w = Some m →
  iterrows mini_batch = before ++ (l, sample) :: after →
  Forall2 (λ r p, predict m (reshape_1_row r.2) = Returned p) before preds →
  predict m (reshape_1_row sample) = Raised e →
  isinstance_Exception e = true →
  run mini_batch w
  = (Returned PyNone,
     MkWorld (stdout w ++ [exn_str (loop_stop None preds e).2]) (model w)
             (predict_calls w
              ++ call_args (take (loop_stop None preds e).1
                                 (iterrows mini_batch).*2)))
  ∧ 1 ≤ (loop_stop None preds e).1 ≤ S (length before)
  ∧ (∀ c, Forall (λ p, (atleast_2d p).1 = c) preds →
          loop_stop None preds e = (S (length before), e)).
Proof.
  intros Hm Hrows Hbefore Hraise He.
  pose proof (Forall2_length _ _ _ Hbefore) as Hlen.
  split; [|split].
  - unfold run, try_except_Exception, mbind at 1, M_bind at 1.
    rewrite Hrows.
    rewrite (score_rows_stop m before preds l sample after e None w
               Hm Hbefore Hraise).
    by rewrite (loop_stop_Exception None preds e He).
  - rewrite Hlen. apply loop_stop_bounds.
  - intros c Hall. rewrite Hlen. by apply (loop_stop_uniform c).
Qed.

(** *** A batch scored to the end *)

Lemma prediction_score_2d (p : ndarray value) s :
  prediction_score p = Some s → atleast_2d p = (1, [[s]]).
Proof.
  destruct p as [x|[|x [|??]]|[|[|?]] [|[|x [|??]] [|??]]]; simpl; try done;
    by intros [= ->].
Qed.

Lemma prediction_score_frame (p : ndarray value) s c :
  prediction_score p = Some s →
  (∀ x, p ≠ Arr0 x) →
  pd_DataFrame p [c] = Returned (DF (RangeIndex 1) [c] [[s]]).
Proof.
  destruct p as [x|[|x [|??]]|[|[|?]] [|[|x [|??]] [|??]]]; simpl; try done;
    intros [= ->] Hdim; [by destruct (Hdim s)|done..].
Qed.

(** An array of shape [(1,)] or [(1, 1)] is one score and no scalar. *)
Lemma predicts_yields m (row : list (cell value)) s :
  predicts m row s → yields m row s ∧ ¬ yields_scalar m row.
Proof.
  intros (p & Hp & Hs). split.
  - exists p. split; [done|].
    by destruct p as [x|[|x [|??]]|[|[|?]] [|[|x [|??]] [|??]]].
  - intros (x & Hx). rewrite Hx in Hp. by injection Hp as <-.
Qed.

(** Stacking scores below a one-column matrix. *)
Lemma score_rows_stack m (rows : list (label * list (cell value))) scores acc w :
  model w = Some m →
  Forall2 (λ r s, yields m r.2 s) rows scores →
  score_rows rows (Some (Arr2 1 acc)) w
  = (Returned (Some (Arr2 1 (acc ++ ((λ s, [s]) <$> scores)))),
     after_calls w rows.*2).
Proof.
  intros Hm Hall. revert acc w Hm.
  induction Hall as [|[l0 s0] s rows scores (p & Hp & Hs) _ IH]; intros acc w Hm.
  - simpl. by rewrite after_calls_nil, app_nil_r.
  - simpl. unfold mbind at 1, M_bind at 1.
    rewrite (model_predict_loaded _ _ _ Hm). simpl in Hp. rewrite Hp.
    set (w1 := MkWorld _ _ _).
    assert (Hw1 : w1 = after_calls w [s0]) by done.
    assert (Hm1 : model w1 = Some m) by done.
    unfold mbind at 1, M_bind at 1, lift, np_vstack.
    rewrite (prediction_score_2d _ _ Hs). simpl.
    rewrite (IH (acc ++ [[s]]) w1 Hm1), Hw1, after_calls_cons.
    by rewrite <- app_assoc.
Qed.

(** The loop on a non-empty batch of scores leaves an array that
    [pd.DataFrame] turns into the column of those scores, unless the
    batch has one row and its prediction is a scalar. *)
Lemma score_rows_scores m (rows : list (label * list (cell value))) scores w c :
  model w = Some m →
  rows ≠ [] →
  Forall2 (λ r s, yields m r.2 s) rows scores →
  (length rows = 1 → Forall (λ r, ¬ yields_scalar m r.2) rows) →
  ∃ result,
    score_rows rows None w = (Returned (Some result), after_calls w rows.*2)
    ∧ pd_DataFrame result [c]
      = Returned (DF (RangeIndex (length scores)) [c] ((λ s, [s]) <$> scores)).
Proof.
  intros Hm Hne Hall Hone.
  destruct Hall as [|[l0 s0] s rows scores (p & Hp & Hs) Hall]; [done|].
  simpl. unfold mbind at 1, M_bind at 1.
  rewrite (model_predict_loaded _ _ _ Hm). simpl in Hp. rewrite Hp.
  set (w1 := MkWorld _ _ _).
  assert (Hw1 : w1 = after_calls w [s0]) by done.
  assert (Hm1 : model w1 = Some m) by done.
  unfold mbind at 1, M_bind at 1. simpl. unfold np_array.
  destruct Hall as [|[l1 s1] s' rows scores (p' & Hp' & Hs') Hall].
  - exists p. simpl. split; [done|]. apply prediction_score_frame; [done|].
    intros x ->. specialize (Hone eq_refl).
    apply Forall_cons in Hone as [Hone _]. apply Hone. by exists x.
  - simpl. unfold mbind at 1, M_bind at 1.
    rewrite (model_predict_loaded _ _ _ Hm1). simpl in Hp'. rewrite Hp'.
    set (w2 := MkWorld _ _ _).
    assert (Hw2 : w2 = after_calls w1 [s1]) by done.
    assert (Hm2 : model w2 = Some m) by done.
    unfold mbind at 1, M_bind at 1, lift, np_vstack.
    rewrite (prediction_score_2d _ _ Hs), (prediction_score_2d _ _ Hs'). simpl.
    rewrite (score_rows_stack m rows scores _ w2 Hm2 Hall).
    eexists. split.
    + by rewrite Hw2, after_calls_cons, Hw1, after_calls_cons.
    + simpl. by rewrite ?length_app, ?length_fmap.
Qed.

(** The same for the rows of a batch. *)
Lemma score_rows_batch mini_batch m (scores : list (cell value)) w c :
  model w = Some m →
  aligned mini_batch →
  nrows mini_batch ≠ 0 →
  Forall2 (yields m) (df_values mini_batch) scores →
  (nrows mini_batch = 1 →
   Forall (λ row, ¬ yields_scalar m row) (df_values mini_batch)) →
  ∃ result,
    score_rows (iterrows mini_batch) None w
    = (Returned (Some result), after_calls w (df_values mini_batch))
    ∧ pd_DataFrame result [c]
      = Returned (DF (RangeIndex (length scores)) [c] ((λ s, [s]) <$> scores)).
Proof.
  intros Hm Hal Hne Hall Hone.
  pose proof (iterrows_values _ Hal) as Hvals.
  assert (Hrows : iterrows mini_batch ≠ []).
  { intros Hnil. rewrite Hnil in Hvals. unfold aligned in Hal.
    rewrite <- Hvals in Hal. simpl in Hal. lia. }
  assert (Hall' : Forall2 (λ r s, yields m r.2 s) (iterrows mini_batch) scores).
  { rewrite <- Hvals in Hall. apply (Forall2_fmap_l snd) in Hall.
    eapply Forall2_impl; [exact Hall|]. intros r s Hrs. exact Hrs. }
  assert (Hone' : length (iterrows mini_batch) = 1 →
                  Forall (λ r, ¬ yields_scalar m r.2) (iterrows mini_batch)).
  { intros Hlen. apply (Forall_fmap snd (λ row, ¬ yields_scalar m row)).
    rewrite Hvals. apply Hone.
    unfold aligned in Hal. rewrite <- Hal, <- Hvals. by rewrite length_fmap. }
  destruct (score_rows_scores m _ scores w c Hm Hrows Hall' Hone')
    as (result & Hloop & Hframe).
  exists result. by rewrite <- Hvals.
Qed.

(** *** The join with the score column *)

(** Looking a label up in a one-column frame indexed [k], [k + 1], ... *)
Lemma row_at_from (k : nat) (scores : list (cell value)) c l :
  row_at (DF ((λ i, LInt (Z.of_nat i)) <$> seq k (length scores)) [c]
             ((λ s, [s]) <$> scores)) l
  = [match l with
     | LInt z =>
         if decide (Z.of_nat k ≤ z)%Z
         then default NaN (scores !! (Z.to_nat z - k)) else NaN
     | LStr _ => NaN
     end].
Proof.
  unfold row_at, iterrows. simpl.
  revert k. induction scores as [|s ss IH]; intros k; simpl.
  - destruct l as [z|?]; [|done]. by case_decide.
  - case_decide as Heq.
    + subst l. rewrite decide_True by lia.
      by replace (Z.to_nat (Z.of_nat k) - k) with 0 by lia.
    + specialize (IH (S k)).
      destruct (list_find _ _) as [[? [? ?]]|]; simpl in *; rewrite IH;
        (destruct l as [z|?]; [|done]);
        (assert (z ≠ Z.of_nat k) by congruence);
        repeat case_decide; try lia; try done;
        by replace (Z.to_nat z - k) with (S (Z.to_nat z - S k)) by lia.
Qed.

Lemma row_at_scores (scores : list (cell value)) c l :
  row_at (DF (RangeIndex (length scores)) [c] ((λ s, [s]) <$> scores)) l
  = [score_by_label scores l].
Proof.
  unfold RangeIndex. rewrite row_at_from. unfold score_by_label.
  destruct l as [z|?]; [|done]. simpl.
  by replace (Z.to_nat z - 0) with (Z.to_nat z) by lia.
Qed.

(** On the labels 0, 1, ... the lookup by label is the lookup by position. *)
Lemma score_by_label_positional (pre ss : list (cell value))
    (rows : list (list (cell value))) :
  length rows = length ss →
  zip_with (λ l row, row ++ [score_by_label (pre ++ ss) l])
           ((λ i, LInt (Z.of_nat i)) <$> seq (length pre) (length rows)) rows
  = zip_with (λ row s, row ++ [s]) rows ss.
Proof.
  revert pre ss. induction rows as [|row rows IH]; intros pre [|s ss] Hlen;
    simpl in *; try done.
  f_equal.
  - rewrite decide_True by lia. rewrite Nat2Z.id.
    by rewrite list_lookup_middle.
  - specialize (IH (pre ++ [s]) ss).
    rewrite <- app_assoc, length_app in IH. simpl in IH.
    replace (length pre + 1) with (S (length pre)) in IH by lia.
    apply IH. lia.
Qed.

(** What [run] returns on a batch scored to the end: the input rows in
    their order, each extended with the score found under its label. *)
Lemma run_yields_by_label mini_batch w m (scores : list (cell value)) :
  model w = Some m →
  aligned mini_batch →
  nrows mini_batch ≠ 0 →
  Forall2 (yields m) (df_values mini_batch) scores →
  (nrows mini_batch = 1 →
   Forall (λ row, ¬ yields_scalar m row) (df_values mini_batch)) →
  LStr "score" ∉ df_columns mini_batch →
  run mini_batch w
  = (Returned (Frame (DF (df_index mini_batch)
                         (df_columns mini_batch ++ [LStr "score"])
                         (zip_with (λ l row, row ++ [score_by_label scores l])
                                   (df_index mini_batch)
                                   (df_values mini_batch)))),
     after_calls w (df_values mini_batch)).
Proof.
  intros Hm Hal Hne Hall Hone Hcol.
  destruct (score_rows_batch mini_batch m scores w (LStr "score")
              Hm Hal Hne Hall Hone) as (result & Hloop & Hframe).
  unfold run, try_except_Exception, mbind at 1, M_bind at 1.
  rewrite Hloop.
  unfold mbind at 1, M_bind at 1, lift. rewrite Hframe.
  unfold mbind at 1, M_bind at 1, df_join. simpl.
  rewrite decide_True by (by apply Forall_singleton).
  simpl. do 4 f_equal.
  apply zip_with_ext; [|done..].
  intros l row. by rewrite row_at_scores.
Qed.

(** With the default labels the score found under the label of a row is
    the score of that row. *)
Lemma default_index_positional mini_batch (scores : list (cell value)) :
  aligned mini_batch →
  df_index mini_batch = RangeIndex (nrows mini_batch) →
  length (df_values mini_batch) = length scores →
  zip_with (λ l row, row ++ [score_by_label scores l])
           (df_index mini_batch) (df_values mini_batch)
  = zip_with (λ row s, row ++ [s]) (df_values mini_batch) scores.
Proof.
  intros Hal Hidx Hlen. rewrite Hidx. unfold RangeIndex.
  unfold aligned in Hal. rewrite <- Hal.
  by apply (score_by_label_positional [] scores).
Qed.

Lemma run_scores_by_label mini_batch w m (scores : list (cell value)) :
  model w = Some m →
  aligned mini_batch →
  nrows mini_batch ≠ 0 →
  Forall2 (predicts m) (df_values mini_batch) scores →
  LStr "score" ∉ df_columns mini_batch →
  run mini_batch w
  = (Returned (Frame (DF (df_index mini_batch)
                         (df_columns mini_batch ++ [LStr "score"])
                         (zip_with (λ l row, row ++ [score_by_label scores l])
                                   (df_index mini_batch)
                                   (df_values mini_batch)))),
     after_calls w (df_values mini_batch)).
Proof.
  intros Hm Hal Hne Hall Hcol.
  apply (run_yields_by_label mini_batch w m scores); try done.
  - eapply Forall2_impl; [exact Hall|]. intros row s Hrs.
    by apply predicts_yields.
  - intros _. eapply Forall2_Forall_l; [exact Hall|].
    apply Forall_true. intros s row Hrs. by apply (predicts_yields m row s).
Qed.

(** C1, as amended: for every non-empty batch with the default row labels
    0, ..., n-1 and no column named [score], and a loaded model whose
    [predict] answers every row with one score, an array of one element
    and of dimension 0, 1 or 2, though not of dimension 0 when the batch
    has a single row, the hook returns a table with the rows, row labels
    and columns of the input, in order, and one more column, the last,
    named [score], holding in each row the score predicted for that row;
    [predict] was called once per row, in order. *)
Theorem run_scores_default_index mini_batch w m (scores : list (cell value)) :
  model w = Some m →
  aligned mini_batch →
  nrows mini_batch ≠ 0 →
  df_index mini_batch = RangeIndex (nrows mini_batch) →
  LStr "score" ∉ df_columns mini_batch →
  Forall2 (yields m) (df_values mini_batch) scores →
  (nrows mini_batch = 1 →
   Forall (λ row, ¬ yields_scalar m row) (df_values mini_batch)) →
  run mini_batch w
  = (Returned (Frame (DF (df_index mini_batch)
                         (df_columns mini_batch ++ [LStr "score"])
                         (zip_with (λ row s, row ++ [s])
                                   (df_values mini_batch) scores))),
     after_calls w (df_values mini_batch)).
Proof.
  intros Hm Hal Hne Hidx Hcol Hall Hone.
  rewrite (run_yields_by_label _ _ _ scores Hm Hal Hne Hall Hone Hcol).
  do 4 f_equal. apply default_index_positional; [done..|].
  by eapply Forall2_length.
Qed.

End ScoringProperties.

(** ** The initialisation hook *)

Section InitProperties.
Context {value : Type}.
Context
  (get_model : string → option string → option string → option string →
               outcome (option AmlModel))
  (get_model_path : string → Z → outcome string)
  (joblib_load : string → outcome (LoadedModel value)).
Implicit Types (w : World value) (argv : list string).

Local Abbreviation initialise := (init get_model get_model_path joblib_load).
Local Abbreviation failure := (init_fails get_model get_model_path joblib_load).

(** One statement of the [try] block that returns. *)
Local Ltac returns H :=
  unfold mbind at 1, M_bind at 1, lift; rewrite H; cbn [getattr_aml].

(** The [except] clause taking over. *)
Local Ltac caught He :=
  try rewrite He; unfold print, after_init_error; simpl;
  by rewrite <- app_assoc.

(** An exception that is an [Exception] and arises on one of the paths of
    [init_fails] is caught: the hook prints it and returns. *)
Lemma init_catches argv w e :
  failure argv e →
  isinstance_Exception e = true →
  initialise argv w = (Returned (), after_init_error w e).
Proof.
  intros Hfail He. unfold init, try_except_Exception.
  unfold mbind at 1, M_bind at 1. cbn [print].
  destruct Hfail as [e Hp|f e Hp Hg|f Hp Hg|f a e Hp Hg Hl|f a path e Hp Hg Hl Hj].
  - returns Hp. caught He.
  - returns Hp. returns Hg. caught He.
  - returns Hp. returns Hg. caught He.
  - returns Hp. returns Hg.
    unfold mbind at 1, M_bind at 1. unfold mbind at 1, M_bind at 1.
    returns Hl. caught He.
  - returns Hp. returns Hg.
    unfold mbind at 1, M_bind at 1. unfold mbind at 1, M_bind at 1.
    returns Hl. returns Hj. caught He.
Qed.

(** When every step returns, the loaded object is assigned to [model]. *)
Lemma init_loads argv w f a path m :
  parse_args argv = Returned f →
  get_model (model_name f) (model_version f)
            (model_tag_name f) (model_tag_value f) = Returned (Some a) →
  get_model_path (aml_name a) (aml_version a) = Returned path →
  joblib_load path = Returned m →
  initialise argv w
  = (Returned (),
     MkWorld (stdout w ++ ["Initializing batch scoring script..."]
                       ++ [("Loaded model " ++ model_name f)%string])
             (Some m) (predict_calls w)).
Proof.
  intros Hp Hg Hl Hj. unfold init, try_except_Exception.
  unfold mbind at 1, M_bind at 1. cbn [print].
  returns Hp. returns Hg.
  unfold mbind at 1, M_bind at 1. unfold mbind at 1, M_bind at 1.
  returns Hl. returns Hj.
  unfold mbind, M_bind, assign_model, print. simpl.
  by rewrite <- app_assoc.
Qed.

(** C4: for every failure of initialisation, be it an error of the
    resolver, of the registry lookup or of locating and loading the
    artifact, [init] catches the exception, prints it after the word
    [Error:] and returns without raising; the variable [model] keeps the
    value it had, so it is still [None] in a worker that had no model. *)
Theorem init_failure_swallowed argv w e :
  failure argv e →
  isinstance_Exception e = true →
  initialise argv w = (Returned (), after_init_error w e)
  ∧ model (initialise argv w).2 = model w
  ∧ (model w = None → model (initialise argv w).2 = None).
Proof.
  intros Hfail He. rewrite (init_catches argv w e Hfail He).
  split; [done|]. split; [done|]. intros Hnone. exact Hnone.
Qed.

(** For an error of the resolver the class need not be assumed. *)
Lemma init_resolver_error_caught argv w e :
  parse_args argv = Raised e →
  initialise argv w = (Returned (), after_init_error w e).
Proof.
  intros Hp. apply init_catches; [by apply fails_resolver|].
  by eapply parse_args_raises_Exception.
Qed.

(** C2, as amended: for every argument vector that does not contain
    [--model_name], the error of the resolver does not leave [init]: the
    hook catches it, prints that the model name is required and returns
    normally, with [model] unchanged. *)
Theorem init_missing_model_name_swallowed argv w :
  "--model_name" ∉ argv →
  initialise argv w = (Returned (), after_init_error w model_name_required)
  ∧ model (initialise argv w).2 = model w.
Proof.
  intros Hn.
  pose proof (resolver_raises_without_model_name argv Hn) as Hp.
  rewrite (init_catches argv w model_name_required); [done| |done].
  by apply fails_resolver.
Qed.

End InitProperties.

(** ** The hooks on the sample data *)

Example run_three_rows :
  run batch_default (ready constant_model)
  = (Returned (Frame (DF [LInt 0; LInt 1; LInt 2] [LStr "f1"; LStr "score"]
                         [[Val 1%Z; Val 7%Z]; [Val 2%Z; Val 7%Z];
                          [Val 3%Z; Val 7%Z]])),
     MkWorld [] (Some constant_model)
             [Arr2 1 [[Val 1%Z]]; Arr2 1 [[Val 2%Z]]; Arr2 1 [[Val 3%Z]]]).
Proof. reflexivity. Qed.

Example run_second_row_fails :
  run batch_default (ready failing_model)
  = (Returned PyNone,
     MkWorld ["cannot score this row"] (Some failing_model)
             [Arr2 1 [[Val 1%Z]]; Arr2 1 [[Val 2%Z]]]).
Proof. reflexivity. Qed.

(** Predictions of dimension 0 are stacked like arrays of one element. *)
Example run_scalar_model_three_rows :
  run batch_default (ready scalar_model)
  = (Returned (Frame (DF [LInt 0; LInt 1; LInt 2] [LStr "f1"; LStr "score"]
                         [[Val 1%Z; Val 7%Z]; [Val 2%Z; Val 7%Z];
                          [Val 3%Z; Val 7%Z]])),
     MkWorld [] (Some scalar_model)
             [Arr2 1 [[Val 1%Z]]; Arr2 1 [[Val 2%Z]]; Arr2 1 [[Val 3%Z]]]).
Proof. reflexivity. Qed.

(** Two outputs for every row are stacked, and refused as a single column
    named [score]. *)
Example run_two_outputs :
  run batch_default (ready two_output_model)
  = (Returned PyNone,
     MkWorld ["Shape of passed values is (3, 2), indices imply (3, 1)"]
             (Some two_output_model)
             [Arr2 1 [[Val 1%Z]]; Arr2 1 [[Val 2%Z]]; Arr2 1 [[Val 3%Z]]]).
Proof. reflexivity. Qed.

(** A prediction of dimension 0 for a batch of one row is refused. *)
Example run_scalar_model_one_row :
  run batch_one_row (ready scalar_model)
  = (Returned PyNone,
     MkWorld ["Must pass 2-d input. shape=()"] (Some scalar_model)
             [Arr2 1 [[Val 1%Z]]]).
Proof. reflexivity. Qed.

(** Two predictions that cannot be stacked end the loop before the row
    on which [predict] would raise is reached. *)
Example run_unstackable_rows :
  run batch_uneven (ready uneven_model)
  = (Returned PyNone,
     MkWorld [concatenate_mismatch 1 2] (Some uneven_model)
             [Arr2 1 [[Val 1%Z]]; Arr2 1 [[Val 3%Z]]])
  ∧ loop_stop None [Arr1 [Val 7%Z]; Arr1 [Val 7%Z; Val 8%Z]]
              (Exn OtherException "cannot score this row")
    = (2, Exn ValueError (concatenate_mismatch 1 2)).
Proof. split; reflexivity. Qed.

Example run_without_model :
  run batch_default fresh
  = (Returned PyNone,
     MkWorld ["'NoneType' object has no attribute 'predict'"] None []).
Proof. reflexivity. Qed.

Example init_loads_model :
  init (λ _ _ _ _, Returned (Some {| aml_name := "m"; aml_version := 3 |}))
       (λ _ _, Returned "azureml-models/m/3/m.pkl")
       (λ _, Returned constant_model)
       ["driver.py"; "--model_name"; "m"] fresh
  = (Returned (),
     MkWorld ["Initializing batch scoring script..."; "Loaded model m"]
             (Some constant_model) []).
Proof. reflexivity. Qed.

(** An exception that is not an [Exception] passes through both hooks. *)
Example run_lets_interrupt_through :
  run batch_default (ready interrupted_model)
  = (Raised (Exn BaseExceptionOnly "KeyboardInterrupt"),
     MkWorld [] (Some interrupted_model) [Arr2 1 [[Val 1%Z]]]).
Proof. reflexivity. Qed.

Example init_lets_interrupt_through :
  (init (λ _ _ _ _, Raised (Exn BaseExceptionOnly "KeyboardInterrupt"))
        no_path no_load ["driver.py"; "--model_name"; "m"] fresh).1
  = Raised (Exn BaseExceptionOnly "KeyboardInterrupt").
Proof. reflexivity. Qed.

(** ** Alignment of the scores *)

(** C10, as amended: the scores are aligned with the rows by row label.
    For every non-empty batch without a column named [score] and a loaded
    model that answers every row with one score, not of dimension 0 when
    the batch has a single row, each row of the returned table is the
    input row followed by the score that carries the label of that row in
    a column labelled 0, 1, ...; when the labels of the batch are exactly
    0, ..., n-1, that is the score predicted for the row itself; and
    there is a non-empty batch with other labels for which every entry of
    the [score] column is the missing value although every prediction
    was a value. *)
Theorem run_aligns_by_label :
  (∀ (value : Type) (texts : LibraryTexts) (mini_batch : DataFrame value)
     (w : World value) (m : LoadedModel value) (scores : list (cell value)),
     model w = Some m →
     aligned mini_batch →
     nrows mini_batch ≠ 0 →
     LStr "score" ∉ df_columns mini_batch →
     Forall2 (yields m) (df_values mini_batch) scores →
     (nrows mini_batch = 1 →
      Forall (λ row, ¬ yields_scalar m row) (df_values mini_batch)) →
     ∃ out,
       run mini_batch w
       = (Returned (Frame out), after_calls w (df_values mini_batch))
       ∧ df_index out = df_index mini_batch
       ∧ df_columns out = df_columns mini_batch ++ [LStr "score"]
       ∧ df_values out
         = zip_with (λ l row, row ++ [score_by_label scores l])
                    (df_index mini_batch) (df_values mini_batch)
       ∧ (df_index mini_batch = RangeIndex (nrows mini_batch) →
          df_values out
          = zip_with (λ row s, row ++ [s]) (df_values mini_batch) scores))
  ∧ (∃ (mini_batch : DataFrame Z) (m : LoadedModel Z) (scores : list (cell Z)) out,
       nrows mini_batch ≠ 0
       ∧ aligned mini_batch
       ∧ df_index mini_batch ≠ RangeIndex (nrows mini_batch)
       ∧ (LStr "score" ∉ df_columns mini_batch)
       ∧ Forall2 (yields m) (df_values mini_batch) scores
       ∧ Forall (λ s, s ≠ NaN) scores
       ∧ (∀ texts : LibraryTexts,
            (run mini_batch (ready m)).1 = Returned (Frame out))
       ∧ Forall (λ row, last row = Some NaN) (df_values out)).
Proof.
  split.
  - intros value texts mini_batch w m scores Hm Hal Hne Hcol Hall Hone.
    eexists. split; [by apply (run_yields_by_label mini_batch w m scores)|].
    simpl. split; [done|]. split; [done|]. split; [done|].
    intros Hidx. apply default_index_positional; [done..|].
    by eapply Forall2_length.
  - exists batch_shifted, constant_model, [Val 7%Z; Val 7%Z].
    eexists. split; [done|]. split; [done|]. split; [done|].
    split.
    { intros Hin. apply elem_of_cons in Hin as [Hin|Hin]; [discriminate|].
      by apply elem_of_nil in Hin. }
    split; [repeat constructor; by eexists|].
    split; [by repeat constructor|].
    split; [intros texts; reflexivity|]. simpl. by repeat constructor.
Qed.

(** ** Where the hooks depart from the specification *)

Local Ltac absent :=
  let Hin := fresh "Hin" in
  intros Hin;
  repeat (apply elem_of_cons in Hin as [Hin|Hin]; [discriminate|]);
  by apply elem_of_nil in Hin.

Local Ltac pairs := repeat constructor; discriminate.

(** C1 fails as stated, in four ways, each with a loaded model whose
    [predict] returns on every row. On two rows that carry the labels 2
    and 3, the model predicts 7 for each row, and the table returned has
    the missing value, not 7, in both rows of the [score] column. On a
    row of a table that already has a [score] column no table is
    returned. On a batch of one row, a prediction of dimension 0 gives no
    table. A model with two outputs for a row gives no table either. *)
Lemma run_score_lost_off_default_index :
  (Forall2 (yields constant_model) (df_values batch_shifted)
           [Val 7%Z; Val 7%Z]
   ∧ ∀ texts : LibraryTexts,
       (run batch_shifted (ready constant_model)).1
       = Returned (Frame (DF [LInt 2; LInt 3] [LStr "f1"; LStr "score"]
                             [[Val 1%Z; NaN]; [Val 3%Z; NaN]])))
  ∧ (Forall2 (yields constant_model) (df_values batch_with_score) [Val 7%Z]
     ∧ df_index batch_with_score = RangeIndex (nrows batch_with_score)
     ∧ ∀ texts : LibraryTexts,
         (run batch_with_score (ready constant_model)).1 = Returned PyNone)
  ∧ (Forall2 (yields scalar_model) (df_values batch_one_row) [Val 7%Z]
     ∧ df_index batch_one_row = RangeIndex (nrows batch_one_row)
     ∧ ∀ texts : LibraryTexts,
         (run batch_one_row (ready scalar_model)).1 = Returned PyNone)
  ∧ (Forall (λ row, ∃ p, predict two_output_model (reshape_1_row row)
                         = Returned p) (df_values batch_default)
     ∧ df_index batch_default = RangeIndex (nrows batch_default)
     ∧ ∀ texts : LibraryTexts,
         (run batch_default (ready two_output_model)).1 = Returned PyNone).
Proof.
  split; [split; [repeat constructor; by eexists|intros texts; reflexivity]|].
  split.
  { split; [repeat constructor; by eexists|].
    split; [reflexivity|intros texts; reflexivity]. }
  split.
  { split; [repeat constructor; by eexists|].
    split; [reflexivity|intros texts; reflexivity]. }
  split; [repeat constructor; by eexists|].
  split; [reflexivity|intros texts; reflexivity].
Qed.

(** C10 fails as stated: a batch with the labels 0, ..., n-1 need not get
    its predictions. With a column named [score] of its own, with a model
    that raises on a row, with a model of two outputs, with a prediction
    of dimension 0 for a single row, or with no model loaded, the hook
    returns [None] and no table. *)
Lemma run_default_index_without_table :
  df_index batch_with_score = RangeIndex (nrows batch_with_score)
  ∧ df_index batch_default = RangeIndex (nrows batch_default)
  ∧ df_index batch_one_row = RangeIndex (nrows batch_one_row)
  ∧ nrows batch_with_score ≠ 0
  ∧ nrows batch_default ≠ 0
  ∧ nrows batch_one_row ≠ 0
  ∧ ∀ texts : LibraryTexts,
      (run batch_with_score (ready constant_model)).1 = Returned PyNone
      ∧ (run batch_default (ready failing_model)).1 = Returned PyNone
      ∧ (run batch_default (ready two_output_model)).1 = Returned PyNone
      ∧ (run batch_one_row (ready scalar_model)).1 = Returned PyNone
      ∧ (run batch_default fresh).1 = Returned PyNone.
Proof.
  split; [reflexivity|]. split; [reflexivity|]. split; [reflexivity|].
  split; [discriminate|]. split; [discriminate|]. split; [discriminate|].
  intros texts. by repeat split.
Qed.

(** C2 fails as stated. On a vector without [--model_name] the hook
    returns; the error of the resolver does not leave it. *)
Lemma init_returns_without_model_name :
  ("--model_name" ∉ ["driver.py"])
  ∧ parse_args ["driver.py"] = Raised model_name_required
  ∧ init empty_registry no_path no_load ["driver.py"] fresh
    = (Returned (),
       MkWorld ["Initializing batch scoring script...";
                "Error: Model name is required but no model name parameter was passed to the script"]
               None [])
  ∧ (init empty_registry no_path no_load ["driver.py"] fresh).1
    ≠ Raised model_name_required.
Proof.
  split; [absent|].
  split; [reflexivity|]. split; [reflexivity|]. discriminate.
Qed.

(** C5 fails as stated. With [--model_tag_name] supplied and
    [--model_tag_value] absent, the resolver returns a filter that keeps
    the supplied tag name: it is not treated as absent. And a vector of
    that shape that ends with the flag [--model_tag_name] makes the
    resolver raise [IndexError] instead of returning. *)
Lemma parse_args_lone_tag_name_kept :
  ("--model_tag_value"
   ∉ ["driver.py"; "--model_name"; "m"; "--model_tag_name"; "k"])
  ∧ parse_args ["driver.py"; "--model_name"; "m"; "--model_tag_name"; "k"]
    = Returned (MkFilter "m" None (Some "k") None)
  ∧ ("--model_tag_value"
     ∉ ["driver.py"; "--model_name"; "m"; "--model_tag_name"])
  ∧ parse_args ["driver.py"; "--model_name"; "m"; "--model_tag_name"]
    = Raised index_out_of_range.
Proof.
  split; [absent|]. split; [reflexivity|].
  split; [absent|]. reflexivity.
Qed.

(** The other lone flag: with [--model_tag_value] supplied and
    [--model_tag_name] absent, the resolver does not return. The test
    that guards the tag value reads the first pair of the list of tag
    names, which is empty, and raises [IndexError]. *)
Lemma parse_args_lone_tag_value_raises :
  value_after "--model_name"
    ["driver.py"; "--model_name"; "m"; "--model_tag_value"; "v1"] = Some "m"
  ∧ ("--model_tag_name"
     ∉ ["driver.py"; "--model_name"; "m"; "--model_tag_value"; "v1"])
  ∧ parse_args ["driver.py"; "--model_name"; "m"; "--model_tag_value"; "v1"]
    = Raised index_out_of_range
  ∧ ∀ f, parse_args
           ["driver.py"; "--model_name"; "m"; "--model_tag_value"; "v1"]
         ≠ Returned f.
Proof.
  split; [reflexivity|].
  split; [absent|]. split; [reflexivity|]. intros f. discriminate.
Qed.

(** C6 fails as stated. A vector that gives the tag name a blank value
    and the tag value ['v1'] and then ends with a recognised flag makes
    the resolver raise [IndexError]; and where [--model_tag_name] occurs
    twice, first with ['k'] and then with a blank value, the tag value is
    returned: the value of a flag is the token after its first
    occurrence. *)
Lemma parse_args_blank_tag_name_unpaired :
  parse_args ["driver.py"; "--model_name"; "m"; "--model_tag_name"; "";
              "--model_tag_value"; "v1"; "--model_version"]
  = Raised index_out_of_range
  ∧ parse_args ["driver.py"; "--model_name"; "m"; "--model_tag_name"; "k";
                "--model_tag_name"; ""; "--model_tag_value"; "v1"]
    = Returned (MkFilter "m" None (Some "k") (Some "v1")).
Proof. split; reflexivity. Qed.

(** ** The theorems at sample inputs *)

Lemma run_scores_default_index_witness :
  run batch_default (ready scalar_model)
  = (Returned (Frame (DF (df_index batch_default)
                         (df_columns batch_default ++ [LStr "score"])
                         (zip_with (λ row s, row ++ [s])
                                   (df_values batch_default)
                                   [Val 7%Z; Val 7%Z; Val 7%Z]))),
     after_calls (ready scalar_model) (df_values batch_default)).
Proof.
  apply (run_scores_default_index batch_default (ready scalar_model)
           scalar_model [Val 7%Z; Val 7%Z; Val 7%Z]).
  - reflexivity.
  - reflexivity.
  - discriminate.
  - reflexivity.
  - absent.
  - repeat constructor; eexists; split; reflexivity.
  - discriminate.
Defined.

Lemma init_missing_model_name_swallowed_witness :
  init empty_registry no_path no_load ["driver.py"] fresh
  = (Returned (), after_init_error fresh model_name_required)
  ∧ model (init empty_registry no_path no_load ["driver.py"] fresh).2
    = model fresh.
Proof.
  apply (init_missing_model_name_swallowed empty_registry no_path no_load
           ["driver.py"] fresh).
  absent.
Defined.

Lemma run_predict_raises_witness :
  run batch_default (ready failing_model)
  = (Returned PyNone,
     MkWorld ([] ++ ["cannot score this row"]) (Some failing_model)
             ([] ++ call_args [[Val 1%Z]; [Val 2%Z]]))
  ∧ 1 ≤ 2 ≤ 2
  ∧ (∀ c, Forall (λ p, (atleast_2d p).1 = c) [Arr1 [Val 7%Z]] →
          loop_stop None [Arr1 [Val 7%Z]]
                    (Exn OtherException "cannot score this row")
          = (2, Exn OtherException "cannot score this row")).
Proof.
  apply (run_predict_raises batch_default (ready failing_model) failing_model
           [(LInt 0, [Val 1%Z])] [Arr1 [Val 7%Z]]
           (LInt 1) [Val 2%Z] [(LInt 2, [Val 3%Z])]
           (Exn OtherException "cannot score this row")).
  - reflexivity.
  - repeat constructor.
  - repeat constructor.
  - reflexivity.
  - reflexivity.
Defined.

Lemma init_failure_swallowed_witness :
  init empty_registry no_path no_load ["driver.py"; "--model_name"; "m"] fresh
  = (Returned (),
     after_init_error fresh
       (Exn AttributeError "'NoneType' object has no attribute 'name'"))
  ∧ model (init empty_registry no_path no_load
             ["driver.py"; "--model_name"; "m"] fresh).2 = model fresh
  ∧ (model fresh = None →
     model (init empty_registry no_path no_load
              ["driver.py"; "--model_name"; "m"] fresh).2 = None).
Proof.
  apply (init_failure_swallowed empty_registry no_path no_load
           ["driver.py"; "--model_name"; "m"] fresh).
  - by apply (fails_unresolved _ _ _ _ (MkFilter "m" None None None)).
  - reflexivity.
Defined.

Lemma parse_args_tag_name_without_tag_value_witness :
  parse_args ["driver.py"; "--model_name"; "m"; "--model_tag_name"; "k"]
  = Returned (MkFilter "m" None (Some "k") None).
Proof.
  apply (parse_args_tag_name_without_tag_value
           ["driver.py"; "--model_name"; "m"; "--model_tag_name"; "k"] "m" "k").
  - pairs.
  - reflexivity.
  - reflexivity.
  - absent.
Defined.

Lemma parse_args_blank_tag_name_suppresses_tag_value_witness :
  ∃ f, parse_args ["driver.py"; "--model_name"; "m";
                   "--model_tag_name"; ""; "--model_tag_value"; "v1"]
       = Returned f
       ∧ model_tag_value f = None
       ∧ model_tag_name f = None
       ∧ model_name f = "m".
Proof.
  apply (parse_args_blank_tag_name_suppresses_tag_value
           ["driver.py"; "--model_name"; "m";
            "--model_tag_name"; ""; "--model_tag_value"; "v1"] "m" "" "v1").
  - pairs.
  - reflexivity.
  - reflexivity.
  - reflexivity.
  - reflexivity.
Defined.

Lemma parse_args_missing_model_name_witness :
  parse_args ["driver.py"; "--model_version"; "3"] = Raised model_name_required
  ∧ exn_cls model_name_required = ValueError
  ∧ ∀ f, parse_args ["driver.py"; "--model_version"; "3"] ≠ Returned f.
Proof.
  apply (parse_args_missing_model_name ["driver.py"; "--model_version"; "3"]).
  absent.
Defined.

Lemma run_empty_batch_witness :
  run batch_empty (ready constant_model)
  = (Returned EmptyList, ready constant_model).
Proof.
  apply (run_empty_batch batch_empty (ready constant_model)). reflexivity.
Defined.

Lemma run_aligns_by_label_witness :
  ∃ out,
    run batch_default (ready constant_model)
    = (Returned (Frame out),
       after_calls (ready constant_model) (df_values batch_default))
    ∧ df_index out = df_index batch_default
    ∧ df_columns out = df_columns batch_default ++ [LStr "score"]
    ∧ df_values out
      = zip_with (λ l row, row ++ [score_by_label [Val 7%Z; Val 7%Z; Val 7%Z] l])
                 (df_index batch_default) (df_values batch_default)
    ∧ (df_index batch_default = RangeIndex (nrows batch_default) →
       df_values out
       = zip_with (λ row s, row ++ [s]) (df_values batch_default)
                  [Val 7%Z; Val 7%Z; Val 7%Z]).
Proof.
  apply (proj1 run_aligns_by_label Z sample_texts batch_default
           (ready constant_model) constant_model [Val 7%Z; Val 7%Z; Val 7%Z]).
  - reflexivity.
  - reflexivity.
  - discriminate.
  - absent.
  - repeat constructor; eexists; split; reflexivity.
  - discriminate.
Defined.

(** * Further properties of the scoring script *)

(** ** Which vectors the resolver accepts *)

Lemma scan_cons flag itm rest :
  scan flag (itm :: rest)
  = if String.eqb itm flag
    then b ← getitem rest 0; ps ← scan flag rest; Returned ((itm, b) :: ps)
    else scan flag rest.
Proof. reflexivity. Qed.

Lemma getitem_nil {A} i : getitem (@nil A) i = Raised index_out_of_range.
Proof. by destruct i. Qed.

Lemma getitem_head {A} (x : A) l : getitem (x :: l) 0 = Returned x.
Proof. reflexivity. Qed.

Lemma scan_returns_last flag items ps :
  scan flag items = Returned ps → last items ≠ Some flag.
Proof.
  revert ps. induction items as [|itm rest IH]; intros ps; [done|].
  rewrite scan_cons. destruct (String.eqb_spec itm flag) as [->|Hne].
  - destruct (scan flag rest) as [ps'|e] eqn:Hs.
    + specialize (IH ps' eq_refl).
      destruct rest as [|b rest']; [by rewrite getitem_nil|]. by intros _.
    + destruct rest as [|b rest']; [by rewrite getitem_nil|].
      rewrite getitem_head. intros Hr. cbn in Hr. discriminate.
  - intros Hs. specialize (IH ps Hs).
    destruct rest as [|b rest']; [|done]. simpl. congruence.
Qed.

Lemma scan_Returned_head flag items ps :
  scan flag items = Returned ps →
  head ps = (λ v, (flag, v)) <$> value_after flag items.
Proof.
  intros Hs. destruct (scan_paired flag items (scan_returns_last _ _ _ Hs))
    as (ps' & Hs' & Hhd). congruence.
Qed.

Lemma scan_raises flag items e :
  scan flag items = Raised e → e = index_out_of_range.
Proof.
  induction items as [|itm rest IH]; simpl; [done|].
  destruct (String.eqb itm flag); [|done].
  unfold getitem. destruct (rest !! 0); simpl; [|by intros [= <-]].
  destruct (scan flag rest); simpl; [discriminate|]. intros [= <-]. by apply IH.
Qed.

Lemma getitem_raises {A} (l : list A) i e :
  getitem l i = Raised e → e = index_out_of_range.
Proof. unfold getitem. destruct (l !! i); [done|]. by intros [= <-]. Qed.

(** Whatever the resolver raises is one of its two errors, and the
    configuration error means that the token is missing. *)
Lemma parse_args_raises argv e :
  parse_args argv = Raised e →
  (e = model_name_required ∧ "--model_name" ∉ argv)
  ∨ (e = index_out_of_range ∧ "--model_name" ∈ argv).
Proof.
  destruct (decide ("--model_name" ∈ argv)) as [Hin|Hout].
  - intros Hp. right. split; [|done].
    revert Hp. unfold parse_args. rewrite !flag_params_scan.
    destruct (scan "--model_name" argv) as [pn|e0] eqn:Hn; cbn -[strip scan].
    2:{ intros [= <-]. by eapply scan_raises. }
    destruct pn as [|p0 pn].
    { pose proof (scan_returns_last _ _ _ Hn) as Hl.
      apply scan_Returned_head in Hn. simpl in Hn.
      destruct (value_after_present _ _ Hin Hl) as [v Hv].
      rewrite Hv in Hn. discriminate. }
    cbn -[strip scan].
    repeat match goal with
    | |- Raised _ = Raised _ → _ => intros [= <-]; done
    | |- Returned _ = Raised _ → _ => discriminate
    | |- context [scan ?f ?l] =>
        let H := fresh "Hs" in
        destruct (scan f l) eqn:H; [|apply scan_raises in H; subst];
        cbn -[strip scan]
    | |- context [getitem ?l ?i] =>
        let H := fresh "Hg" in
        destruct (getitem l i) eqn:H; [|apply getitem_raises in H; subst];
        cbn -[strip scan]
    | |- context [if ?b then _ else _] => destruct b; cbn -[strip scan]
    end.
  - rewrite (resolver_raises_without_model_name argv Hout).
    intros [= <-]. by left.
Qed.

Lemma parse_args_Returned_paired argv f :
  parse_args argv = Returned f → paired argv.
Proof.
  unfold parse_args. rewrite !flag_params_scan.
  repeat match goal with
  | |- Raised _ = Returned _ → _ => discriminate
  | |- context [scan ?fl ?l] =>
      let H := fresh "Hs" in
      destruct (scan fl l) eqn:H; [apply scan_returns_last in H|];
      cbn -[strip scan]
  | |- context [getitem ?l ?i] => destruct (getitem l i); cbn -[strip scan]
  | |- context [if ?b then _ else _] => destruct b; cbn -[strip scan]
  end;
  intros _; unfold paired, recognised_flags; by repeat constructor.
Qed.

Lemma parse_args_accepts (argv : list string) :
  (∃ f, parse_args argv = Returned f)
  ↔ ("--model_name" ∈ argv
     ∧ paired argv
     ∧ ("--model_tag_value" ∈ argv → "--model_tag_name" ∈ argv)).
Proof.
  split.
  - intros [f Hf]. pose proof (parse_args_Returned_paired _ _ Hf) as Hp.
    assert (Hflag : ∀ flag, flag ∈ recognised_flags → flag ∈ argv →
                            is_Some (value_after flag argv)).
    { intros flag Hfl Hin. apply value_after_present; [done|].
      by apply (proj1 (Forall_forall _ _) Hp). }
    split.
    { destruct (decide ("--model_name" ∈ argv)) as [|Hout]; [done|].
      rewrite (resolver_raises_without_model_name _ Hout) in Hf. discriminate. }
    split; [done|]. intros Hv.
    destruct (decide ("--model_tag_name" ∈ argv)) as [|Hout]; [done|].
    rewrite (parse_args_paired _ Hp) in Hf.
    destruct (Hflag "--model_tag_value") as [v Hv'];
      [unfold recognised_flags; by repeat constructor|done|].
    rewrite Hv', (value_after_absent _ _ Hout) in Hf.
    destruct (value_after "--model_name" argv); discriminate.
  - intros (Hn & Hp & Htag).
    assert (Hflag : ∀ flag, flag ∈ recognised_flags → flag ∈ argv →
                            is_Some (value_after flag argv)).
    { intros flag Hfl Hin. apply value_after_present; [done|].
      by apply (proj1 (Forall_forall _ _) Hp). }
    rewrite (parse_args_paired _ Hp).
    destruct (Hflag "--model_name") as [n ->];
      [unfold recognised_flags; by repeat constructor|done|].
    destruct (decide ("--model_tag_value" ∈ argv)) as [Hv|Hv].
    + destruct (Hflag "--model_tag_value") as [v ->];
        [unfold recognised_flags; by repeat constructor|done|].
      destruct (Hflag "--model_tag_name") as [k ->];
        [unfold recognised_flags; by repeat constructor|by apply Htag|].
      by eexists.
    + rewrite (value_after_absent _ _ Hv). by eexists.
Qed.

(** The resolver returns a filter exactly for the vectors that contain
    [--model_name], end in no recognised flag, and contain
    [--model_tag_name] whenever they contain [--model_tag_value]. *)
Theorem parse_args_returns_iff (argv : list string) :
  (∃ f, parse_args argv = Returned f)
  ↔ ("--model_name" ∈ argv
     ∧ paired argv
     ∧ ("--model_tag_value" ∈ argv → "--model_tag_name" ∈ argv)).
Proof. exact (parse_args_accepts argv). Qed.

(** The resolver raises nothing but its [ValueError], which it raises
    exactly when the token [--model_name] does not occur, and the
    [IndexError] of an index out of range, which it raises when a
    recognised flag ends the vector or a tag value comes without a tag
    name. *)
Theorem parse_args_errors (argv : list string) (e : exn) :
  parse_args argv = Raised e →
  (e = model_name_required ∧ "--model_name" ∉ argv)
  ∨ (e = index_out_of_range ∧ "--model_name" ∈ argv
     ∧ (¬ paired argv
        ∨ ("--model_tag_value" ∈ argv ∧ "--model_tag_name" ∉ argv))).
Proof.
  intros Hp. destruct (parse_args_raises argv e Hp) as [?|[-> Hin]]; [by left|].
  right. split; [done|]. split; [done|].
  destruct (decide ("--model_tag_value" ∈ argv)) as [Hv|Hv];
    destruct (decide ("--model_tag_name" ∈ argv)) as [Hk|Hk];
    try (by right).
  all: left; intros Hpair;
    destruct (proj2 (parse_args_accepts argv)) as [f Hf];
    [split; [done|]; split; [done|]; done|congruence].
Qed.

(** On a paired vector each field of the filter is read off the token
    after the first occurrence of its flag: the name as it stands, version
    and tag name unless blank, and the tag value unless the tag name is
    blank; a tag value without a tag name is an [IndexError]. *)
Theorem parse_args_on_paired_vector (argv : list string) :
  paired argv →
  parse_args argv =
  match value_after "--model_name" argv with
  | None => Raised model_name_required
  | Some n =>
      let ver := unless_blank (value_after "--model_version" argv) in
      let tag := unless_blank (value_after "--model_tag_name" argv) in
      match value_after "--model_tag_value" argv with
      | None => Returned (MkFilter n ver tag None)
      | Some v =>
          match value_after "--model_tag_name" argv with
          | None => Raised index_out_of_range
          | Some k =>
              Returned (MkFilter n ver tag
                          (if whitespace_only k then None else Some v))
          end
      end
  end.
Proof. exact (parse_args_paired argv). Qed.

(** ** The arguments of the scoring step, read back by the resolver *)

Lemma value_after_app flag pre l :
  flag ∉ pre → value_after flag (pre ++ l) = value_after flag l.
Proof.
  induction pre as [|x pre IH]; simpl; [done|].
  intros [Hne Hn]%not_elem_of_cons.
  destruct (String.eqb_spec x flag); [congruence|]. by apply IH.
Qed.

Lemma eqb_not_flag x flag :
  x ∉ recognised_flags → flag ∈ recognised_flags → String.eqb x flag = false.
Proof.
  intros Hx Hf. destruct (String.eqb_spec x flag); [|done]. by subst.
Qed.

(** Whatever four values are bound to the pipeline parameters, none of
    them a recognised flag, and whatever other tokens the harness puts
    before and after the arguments of the scoring step, the resolver
    returns the bound name, the version and the tag name unless blank, and
    the tag value unless the tag name is blank. *)
Theorem parse_args_scoring_step_arguments (pre post : list string)
    (n v k t : string) :
  Forall (λ x, x ∉ recognised_flags) [n; v; k; t] →
  Forall (λ x, x ∉ recognised_flags) pre →
  Forall (λ x, x ∉ recognised_flags) post →
  parse_args (pre ++ scoring_step_arguments n v k t ++ post)
  = Returned (MkFilter n (unless_blank (Some v)) (unless_blank (Some k))
                       (if whitespace_only k then None else Some t)).
Proof.
  intros Hvals Hpre Hpost.
  apply Forall_cons in Hvals as [Hn Hvals].
  apply Forall_cons in Hvals as [Hv Hvals].
  apply Forall_cons in Hvals as [Hk Hvals].
  apply Forall_cons in Hvals as [Ht _].
  assert (Hflags : ∀ flag, flag ∈ recognised_flags → flag ∉ pre).
  { intros flag Hf Hin. by apply (proj1 (Forall_forall _ _) Hpre flag Hin). }
  assert (Hp : paired (pre ++ scoring_step_arguments n v k t ++ post)).
  { apply Forall_forall. intros flag Hf. unfold scoring_step_arguments.
    simpl. rewrite last_app_cons, !last_cons_cons.
    destruct post as [|p post'].
    - simpl. intros [= ->]. done.
    - rewrite last_cons_cons. intros Hl%last_Some_elem_of.
      by apply (proj1 (Forall_forall _ _) Hpost flag Hl). }
  rewrite (parse_args_paired _ Hp).
  assert (Hin : ∀ flag, flag ∈ recognised_flags →
            value_after flag (pre ++ scoring_step_arguments n v k t ++ post)
            = value_after flag (scoring_step_arguments n v k t ++ post)).
  { intros flag Hf. by apply value_after_app, Hflags. }
  rewrite !Hin by (unfold recognised_flags; by repeat constructor).
  unfold scoring_step_arguments. simpl.
  rewrite !(eqb_not_flag n), !(eqb_not_flag v), !(eqb_not_flag k)
    by (done || (unfold recognised_flags; by repeat constructor)).
  done.
Qed.

(** ** The scoring hook on every batch *)

Section ScoringInGeneral.
Context {value : Type} {texts : LibraryTexts}.
Implicit Types (w : World value) (m : LoadedModel value).
Implicit Types (mini_batch : DataFrame value).

(** One turn of the loop, spelled out. *)
Lemma score_rows_cons l0 (s0 : list (cell value)) rest result w :
  score_rows ((l0, s0) :: rest) result w
  = match model w with
    | None =>
        (Raised (Exn AttributeError
                   "'NoneType' object has no attribute 'predict'"), w)
    | Some m =>
        match predict m (reshape_1_row s0) with
        | Raised e => (Raised e, after_calls w [s0])
        | Returned p =>
            match match result with
                  | None => Returned (np_array p)
                  | Some r => np_vstack r p
                  end with
            | Raised e => (Raised e, after_calls w [s0])
            | Returned r' => score_rows rest (Some r') (after_calls w [s0])
            end
        end
    end.
Proof.
  simpl. unfold mbind at 1, M_bind at 1.
  destruct (model w) as [m|] eqn:Hm;
    [rewrite (model_predict_loaded _ _ _ Hm)
    |unfold model_predict; by rewrite Hm].
  change (MkWorld (stdout w) (model w) (predict_calls w ++ [reshape_1_row s0]))
    with (after_calls w [s0]).
  destruct (predict m (reshape_1_row s0)) as [p|e]; [|done].
  unfold mbind at 1, M_bind at 1.
  destruct result as [r|]; [|done].
  unfold lift. by destruct (np_vstack r p).
Qed.

Lemma score_rows_state (rows : list (label * list (cell value))) result w :
  model (score_rows rows result w).2 = model w
  ∧ stdout (score_rows rows result w).2 = stdout w
  ∧ ∃ n, n ≤ length rows
         ∧ predict_calls (score_rows rows result w).2
           = predict_calls w ++ take n (call_args rows.*2).
Proof.
  revert result w. induction rows as [|[l0 s0] rows IH]; intros result w.
  - simpl. split; [done|]. split; [done|]. exists 0.
    split; [done|]. by rewrite app_nil_r.
  - rewrite score_rows_cons.
    assert (Hone : ∀ o : outcome (option (ndarray value)),
       model (o, after_calls w [s0]).2 = model w
       ∧ stdout (o, after_calls w [s0]).2 = stdout w
       ∧ ∃ n, n ≤ length ((l0, s0) :: rows)
              ∧ predict_calls (o, after_calls w [s0]).2
                = predict_calls w ++ take n (call_args ((l0, s0) :: rows).*2)).
    { intros o. split; [done|]. split; [done|]. exists 1. split; [simpl; lia|done]. }
    destruct (model w) as [m|] eqn:Hm.
    2:{ split; [done|]. split; [done|]. exists 0. split; [lia|].
        simpl. by rewrite app_nil_r. }
    destruct (predict m (reshape_1_row s0)) as [p|e]; [|apply Hone].
    destruct (match result with
              | Some r => np_vstack r p
              | None => Returned (np_array p)
              end) as [r'|e]; [|apply Hone].
    destruct (IH (Some r') (after_calls w [s0])) as (IHm & IHs & n & Hn & IHc).
    split; [by rewrite IHm|]. split; [by rewrite IHs|].
    exists (S n). split; [simpl; lia|].
    rewrite IHc. simpl. by rewrite <- app_assoc.
Qed.

Lemma score_rows_Returned (rows : list (label * list (cell value))) result w r w' :
  score_rows rows result w = (Returned r, w') →
  w' = after_calls w rows.*2 ∧ (rows ≠ [] → is_Some r) ∧ (rows = [] → r = result).
Proof.
  revert result w. induction rows as [|[l0 s0] rows IH]; intros result w.
  - simpl. intros [= <- <-]. by rewrite after_calls_nil.
  - rewrite score_rows_cons.
    destruct (model w) as [m|]; [|discriminate].
    destruct (predict m (reshape_1_row s0)) as [p|e]; [|discriminate].
    destruct (match result with
              | Some r0 => np_vstack r0 p
              | None => Returned (np_array p)
              end) as [r'|e]; [|discriminate].
    intros Hrest. destruct (IH _ _ Hrest) as (-> & Hsome & Hnil).
    split; [by rewrite after_calls_cons|]. split; [|done].
    intros _. destruct rows; [rewrite Hnil by done; by eexists|by apply Hsome].
Qed.

Lemma score_rows_Raised (rows : list (label * list (cell value))) result w e w' :
  (∀ m x e', model w = Some m → predict m x = Raised e' →
             isinstance_Exception e' = true) →
  score_rows rows result w = (Raised e, w') →
  isinstance_Exception e = true.
Proof.
  intros Hpred. revert result w Hpred.
  induction rows as [|[l0 s0] rows IH]; intros result w Hpred; [done|].
  rewrite score_rows_cons.
  destruct (model w) as [m|] eqn:Hm; [|by intros [= <- <-]].
  destruct (predict m (reshape_1_row s0)) as [p|e0] eqn:Hp.
  2:{ intros [= <- <-]. by eapply Hpred. }
  destruct result as [r0|].
  - destruct (np_vstack r0 p) as [r'|e0] eqn:Hst.
    + apply IH. intros m' x e' Hm'. simpl in Hm'. rewrite Hm in Hm'.
      injection Hm' as <-. by apply Hpred.
    + intros [= <- <-]. by eapply np_vstack_raises_Exception.
  - apply IH. intros m' x e' Hm'. simpl in Hm'. rewrite Hm in Hm'.
    injection Hm' as <-. by apply Hpred.
Qed.

Lemma pd_DataFrame_raises_Exception (a : ndarray value) cols e :
  pd_DataFrame a cols = Raised e → isinstance_Exception e = true.
Proof.
  destruct a; simpl; [by intros [= <-]| |]; case_match; try discriminate;
    by intros [= <-].
Qed.

Lemma df_join_raises_Exception (left other : DataFrame value) e :
  df_join left other = Raised e → isinstance_Exception e = true.
Proof. unfold df_join. case_decide; [discriminate|]. by intros [= <-]. Qed.

(** The hook, spelled out after its loop. *)
Lemma run_unfold mini_batch w :
  run mini_batch w
  = match score_rows (iterrows mini_batch) None w with
    | (Raised e, w') =>
        if isinstance_Exception e
        then (Returned PyNone,
              MkWorld (stdout w' ++ [exn_str e]) (model w') (predict_calls w'))
        else (Raised e, w')
    | (Returned None, w') => (Returned EmptyList, w')
    | (Returned (Some r), w') =>
        match r' ← pd_DataFrame r [LStr "score"]; df_join mini_batch r' with
        | Returned joined => (Returned (Frame joined), w')
        | Raised e =>
            (Returned PyNone,
             MkWorld (stdout w' ++ [exn_str e]) (model w') (predict_calls w'))
        end
    end.
Proof.
  unfold run, try_except_Exception, mbind at 1, M_bind at 1.
  destruct (score_rows (iterrows mini_batch) None w) as [[[r|]|e] w']; try done.
  unfold mbind at 1, M_bind at 1, lift.
  destruct (pd_DataFrame r [LStr "score"]) as [scores|e] eqn:Hf; simpl.
  - unfold mbind at 1, M_bind at 1.
    destruct (df_join mini_batch scores) as [joined|e] eqn:Hj; simpl; [done|].
    by rewrite (df_join_raises_Exception _ _ _ Hj).
  - by rewrite (pd_DataFrame_raises_Exception _ _ _ Hf).
Qed.

Lemma iterrows_nil_iff mini_batch :
  iterrows mini_batch = []
  ↔ df_index mini_batch = [] ∨ df_values mini_batch = [].
Proof.
  unfold iterrows.
  destruct (df_index mini_batch), (df_values mini_batch); simpl; split;
    try done; try (by left); try (by right). by intros [|].
Qed.

(** The hook never raises, whatever the batch and whether or not a model
    is loaded, as long as what [predict] raises is an [Exception]. *)
Theorem run_never_raises mini_batch w :
  (∀ m x e, model w = Some m → predict m x = Raised e →
            isinstance_Exception e = true) →
  ∃ v, (run mini_batch w).1 = Returned v.
Proof.
  intros Hpred. rewrite run_unfold.
  destruct (score_rows (iterrows mini_batch) None w) as [[[r|]|e] w'] eqn:Hloop.
  - destruct (r' ← pd_DataFrame r [LStr "score"]; df_join mini_batch r');
      by eexists.
  - by eexists.
  - rewrite (score_rows_Raised _ _ _ _ _ Hpred Hloop). by eexists.
Qed.

(** The hook leaves the variable [model] alone and calls [predict] on the
    first rows of the batch, in their order: on all of them when it
    returns a table, on none when it returns the empty list. It prints
    one line when it returns [None] and nothing otherwise. *)
Theorem run_keeps_state mini_batch w :
  model (run mini_batch w).2 = model w
  ∧ ∃ n, n ≤ length (iterrows mini_batch)
         ∧ predict_calls (run mini_batch w).2
           = predict_calls w ++ take n (call_args (iterrows mini_batch).*2)
         ∧ match (run mini_batch w).1 with
           | Returned (Frame _) =>
               n = length (iterrows mini_batch)
               ∧ stdout (run mini_batch w).2 = stdout w
           | Returned EmptyList =>
               n = 0 ∧ stdout (run mini_batch w).2 = stdout w
           | Returned PyNone =>
               ∃ line, stdout (run mini_batch w).2 = stdout w ++ [line]
           | Raised _ => stdout (run mini_batch w).2 = stdout w
           end.
Proof.
  rewrite run_unfold.
  destruct (score_rows_state (iterrows mini_batch) None w) as (Hm & Hs & Hc).
  destruct (score_rows (iterrows mini_batch) None w) as [[[r|]|e] w'] eqn:Hloop;
    simpl in Hm, Hs, Hc.
  - destruct (score_rows_Returned _ _ _ _ _ Hloop) as (Hw' & _).
    assert (Hall : predict_calls w'
                   = predict_calls w
                     ++ take (length (iterrows mini_batch))
                             (call_args (iterrows mini_batch).*2)).
    { rewrite Hw'. simpl. f_equal. symmetry. apply take_ge.
      unfold call_args. by rewrite !length_fmap. }
    destruct (r' ← pd_DataFrame r [LStr "score"]; df_join mini_batch r');
      simpl; (split; [done|]); exists (length (iterrows mini_batch));
      (split; [done|]); (split; [done|]); [done|].
    rewrite Hs. by eexists.
  - destruct (score_rows_Returned _ _ _ _ _ Hloop) as (Hw' & Hsome & _).
    assert (Hnil : iterrows mini_batch = []).
    { destruct (iterrows mini_batch); [done|].
      by destruct Hsome as [? ?]. }
    simpl. split; [done|]. exists 0. split; [lia|].
    split; [|done]. rewrite Hw', Hnil. simpl. by rewrite app_nil_r.
  - destruct Hc as (n & Hn & Hc).
    destruct (isinstance_Exception e); simpl; (split; [done|]); exists n;
      (split; [done|]); (split; [done|]); [|done].
    rewrite Hs. by eexists.
Qed.

(** The hook returns the empty list for a batch without rows and for no
    other batch. *)
Theorem run_empty_list_iff mini_batch w :
  (run mini_batch w).1 = Returned EmptyList
  ↔ df_index mini_batch = [] ∨ df_values mini_batch = [].
Proof.
  rewrite <- iterrows_nil_iff, run_unfold. split.
  - destruct (score_rows (iterrows mini_batch) None w) as [[[r|]|e] w'] eqn:Hloop.
    + by destruct (r' ← pd_DataFrame r [LStr "score"]; df_join mini_batch r').
    + intros _. destruct (score_rows_Returned _ _ _ _ _ Hloop) as (_ & Hsome & _).
      destruct (iterrows mini_batch); [done|].
      by destruct Hsome as [? ?].
    + by destruct (isinstance_Exception e).
  - by intros ->.
Qed.

(** Without a model every batch that has a row is answered with [None]:
    the hook prints that [None] has no [predict] and calls nothing. *)
Theorem run_unloaded_returns_None mini_batch w :
  model w = None →
  df_index mini_batch ≠ [] →
  df_values mini_batch ≠ [] →
  run mini_batch w
  = (Returned PyNone,
     MkWorld (stdout w ++ ["'NoneType' object has no attribute 'predict'"])
             None (predict_calls w)).
Proof.
  intros Hm Hi Hv. rewrite run_unfold.
  destruct (iterrows mini_batch) as [|[l0 s0] rows] eqn:Hrows.
  { apply iterrows_nil_iff in Hrows as [|]; done. }
  rewrite score_rows_cons, Hm. simpl. by rewrite Hm.
Qed.

Lemma pd_DataFrame_columns (a : ndarray value) cols df :
  pd_DataFrame a cols = Returned df → df_columns df = cols.
Proof.
  destruct a; simpl; [discriminate| |]; case_match; try discriminate;
    by intros [= <-].
Qed.

(** A table that the hook returns has the row labels of the batch, its
    columns followed by [score], which the batch did not have, and in
    each row the cells of the input row followed by cells found under the
    label of that row; [predict] has then been called on every row, once
    and in order. *)
Theorem run_frame_preserves_input mini_batch w out w' :
  run mini_batch w = (Returned (Frame out), w') →
  df_index out = df_index mini_batch
  ∧ df_columns out = df_columns mini_batch ++ [LStr "score"]
  ∧ (LStr "score" ∉ df_columns mini_batch)
  ∧ (∃ extra : label → list (cell value),
       df_values out
       = zip_with (λ l row, row ++ extra l)
                  (df_index mini_batch) (df_values mini_batch))
  ∧ w' = after_calls w (iterrows mini_batch).*2.
Proof.
  rewrite run_unfold.
  destruct (score_rows (iterrows mini_batch) None w) as [[[r|]|e] w1] eqn:Hloop.
  - destruct (score_rows_Returned _ _ _ _ _ Hloop) as (-> & _).
    destruct (pd_DataFrame r [LStr "score"]) as [scores|e] eqn:Hf; simpl;
      [|discriminate].
    pose proof (pd_DataFrame_columns _ _ _ Hf) as Hcols.
    unfold df_join. case_decide as Hfresh; [|discriminate].
    rewrite Hcols in Hfresh. apply (proj1 (Forall_singleton _ _)) in Hfresh.
    intros [= <- <-]. simpl. rewrite Hcols.
    split; [done|]. split; [done|]. split; [done|].
    split; [by exists (row_at scores)|done].
  - discriminate.
  - by destruct (isinstance_Exception e).
Qed.

(** The one label that a list of labels shares with [[c]]. *)
Lemma overlap_singleton (cols : list label) c :
  c ∈ cols → remove_dups (filter (λ x, x ∈ [c]) cols) = [c].
Proof.
  intros Hin.
  assert (Hmem : ∀ x, x ∈ remove_dups (filter (λ x, x ∈ [c]) cols) ↔ x = c).
  { intros x. rewrite elem_of_remove_dups, list_elem_of_filter.
    rewrite list_elem_of_singleton. split; [by intros [? ?]|by intros ->]. }
  pose proof (NoDup_remove_dups (filter (λ x, x ∈ [c]) cols)) as Hnd.
  destruct (remove_dups (filter (λ x, x ∈ [c]) cols)) as [|x [|y rest]].
  - assert (Hc : c ∈ @nil label) by (by apply Hmem).
    by apply elem_of_nil in Hc.
  - f_equal. apply Hmem. by left.
  - assert (x = c) as -> by (apply Hmem; by left).
    assert (y = c) as -> by (apply Hmem; right; by left).
    apply NoDup_cons in Hnd as [Hnot _]. destruct Hnot. by left.
Qed.

(** A batch that already has a column named [score] gets no table,
    whatever the model does. When every row is scored, by a loaded model
    that answers every row with one score, not of dimension 0 on a batch
    of a single row, the hook calls [predict] on every row and then
    returns [None], printing that the columns overlap and the index of
    the overlapping label. *)
Theorem run_score_column_taken mini_batch w :
  LStr "score" ∈ df_columns mini_batch →
  (∀ out, (run mini_batch w).1 ≠ Returned (Frame out))
  ∧ ∀ m (scores : list (cell value)),
      model w = Some m →
      aligned mini_batch →
      nrows mini_batch ≠ 0 →
      Forall2 (yields m) (df_values mini_batch) scores →
      (nrows mini_batch = 1 →
       Forall (λ row, ¬ yields_scalar m row) (df_values mini_batch)) →
      run mini_batch w
      = (Returned PyNone,
         MkWorld (stdout w
                  ++ [("columns overlap but no suffix specified: "
                       ++ Index_str [LStr "score"])%string])
                 (model w)
                 (predict_calls w ++ call_args (df_values mini_batch))).
Proof.
  intros Hcol.
  assert (Hjoin : ∀ other : DataFrame value,
    df_columns other = [LStr "score"] →
    df_join mini_batch other
    = Raised (Exn ValueError
                ("columns overlap but no suffix specified: "
                 ++ Index_str [LStr "score"])%string)).
  { intros other Hother. unfold df_join. rewrite Hother.
    rewrite decide_False.
    - simpl. by rewrite (overlap_singleton _ _ Hcol).
    - intros Hfresh. by apply (proj1 (Forall_singleton _ _)) in Hfresh. }
  split.
  - intros out. rewrite run_unfold.
    destruct (score_rows (iterrows mini_batch) None w) as [[[r|]|e] w'];
      [| discriminate | by destruct (isinstance_Exception e)].
    destruct (pd_DataFrame r [LStr "score"]) as [other|e] eqn:Hf; simpl;
      [|discriminate].
    by rewrite (Hjoin other (pd_DataFrame_columns _ _ _ Hf)).
  - intros m scores Hm Hal Hne Hall Hone.
    destruct (score_rows_batch mini_batch m scores w (LStr "score")
                Hm Hal Hne Hall Hone) as (result & Hloop & Hframe).
    rewrite run_unfold, Hloop, Hframe. simpl.
    by rewrite Hjoin.
Qed.

End ScoringInGeneral.

(** ** The two hooks together *)

Section HooksTogether.
Context {value : Type} {texts : LibraryTexts}.
Context
  (get_model : string → option string → option string → option string →
               outcome (option AmlModel))
  (get_model_path : string → Z → outcome string)
  (joblib_load : string → outcome (LoadedModel value)).
Implicit Types (w : World value) (argv : list string).
Implicit Types (mini_batch : DataFrame value).

Local Abbreviation initialise := (init get_model get_model_path joblib_load).
Local Abbreviation failure := (init_fails get_model get_model_path joblib_load).

(** The state in which [init] leaves the worker when it has loaded [m]. *)
Local Abbreviation loaded w f m :=
  (MkWorld (stdout w ++ ["Initializing batch scoring script..."]
                     ++ [("Loaded model " ++ model_name f)%string])
           (Some m) (predict_calls w)).

Local Ltac returns H :=
  unfold mbind at 1, M_bind at 1, lift; rewrite H; cbn [getattr_aml].

(** An exception that is not an [Exception] leaves the hook. *)
Lemma init_escapes argv w e :
  failure argv e →
  isinstance_Exception e = false →
  initialise argv w
  = (Raised e,
     MkWorld (stdout w ++ ["Initializing batch scoring script..."])
             (model w) (predict_calls w)).
Proof.
  intros Hfail He. unfold init, try_except_Exception.
  unfold mbind at 1, M_bind at 1. cbn [print].
  destruct Hfail as [e Hp|f e Hp Hg|f Hp Hg|f a e Hp Hg Hl|f a path e Hp Hg Hl Hj].
  - returns Hp. by rewrite He.
  - returns Hp. returns Hg. by rewrite He.
  - done.
  - returns Hp. returns Hg.
    unfold mbind at 1, M_bind at 1. unfold mbind at 1, M_bind at 1.
    returns Hl. by rewrite He.
  - returns Hp. returns Hg.
    unfold mbind at 1, M_bind at 1. unfold mbind at 1, M_bind at 1.
    returns Hl. returns Hj. by rewrite He.
Qed.

(** Either one of the steps of [init] fails or all of them return. *)
Lemma init_fails_or_loads argv :
  (∃ e, failure argv e)
  ∨ (∃ f a path m,
       parse_args argv = Returned f
       ∧ get_model (model_name f) (model_version f)
                   (model_tag_name f) (model_tag_value f) = Returned (Some a)
       ∧ get_model_path (aml_name a) (aml_version a) = Returned path
       ∧ joblib_load path = Returned m).
Proof.
  destruct (parse_args argv) as [f|e] eqn:Hp;
    [|left; eexists; by apply fails_resolver].
  destruct (get_model (model_name f) (model_version f)
                      (model_tag_name f) (model_tag_value f))
    as [[a|]|e] eqn:Hg;
    [|left; eexists; by eapply fails_unresolved
     |left; eexists; by eapply fails_lookup].
  destruct (get_model_path (aml_name a) (aml_version a)) as [path|e] eqn:Hl;
    [|left; eexists; by eapply fails_locate].
  destruct (joblib_load path) as [m|e] eqn:Hj;
    [|left; eexists; by eapply fails_load].
  right. by exists f, a, path, m.
Qed.

(** The initialiser never raises as long as what the registry, the
    artifact store and the loader raise is an [Exception]. *)
Theorem init_never_raises argv w :
  (∀ e, failure argv e → isinstance_Exception e = true) →
  ∃ w', initialise argv w = (Returned (), w').
Proof.
  intros Hexn. destruct (init_fails_or_loads argv)
    as [[e Hfail]|(f & a & path & m & Hp & Hg & Hl & Hj)].
  - eexists. by apply init_catches, Hexn.
  - eexists. by eapply init_loads.
Qed.

(** The initialiser assigns [model] only when the resolver, the registry,
    the artifact store and the loader have all returned, and then it
    assigns the object that was loaded from the path of the model found
    for the resolved filter; in every other case [model] is as before. *)
Theorem init_assigns_only_loaded argv w :
  model (initialise argv w).2 = model w
  ∨ (∃ f a path m,
       parse_args argv = Returned f
       ∧ get_model (model_name f) (model_version f)
                   (model_tag_name f) (model_tag_value f) = Returned (Some a)
       ∧ get_model_path (aml_name a) (aml_version a) = Returned path
       ∧ joblib_load path = Returned m
       ∧ initialise argv w = (Returned (), loaded w f m)).
Proof.
  destruct (init_fails_or_loads argv)
    as [[e Hfail]|(f & a & path & m & Hp & Hg & Hl & Hj)].
  - left. destruct (isinstance_Exception e) eqn:He.
    + by rewrite (init_catches _ _ _ argv w e Hfail He).
    + by rewrite (init_escapes argv w e Hfail He).
  - right. exists f, a, path, m. repeat (split; [done|]).
    by eapply init_loads.
Qed.

(** After an initialisation that failed in a worker without a model,
    every batch that has a row is answered with [None]. *)
Theorem run_after_failed_init argv w e mini_batch :
  failure argv e →
  isinstance_Exception e = true →
  model w = None →
  df_index mini_batch ≠ [] →
  df_values mini_batch ≠ [] →
  run mini_batch (initialise argv w).2
  = (Returned PyNone,
     MkWorld (stdout w ++ ["Initializing batch scoring script...";
                           ("Error: " ++ exn_str e)%string;
                           "'NoneType' object has no attribute 'predict'"])
             None (predict_calls w)).
Proof.
  intros Hfail He Hm Hi Hv.
  rewrite (init_catches _ _ _ argv w e Hfail He). simpl.
  rewrite run_unfold.
  destruct (iterrows mini_batch) as [|[l0 s0] rows] eqn:Hrows.
  { apply iterrows_nil_iff in Hrows as [|]; done. }
  rewrite score_rows_cons. simpl. rewrite Hm. simpl.
  by rewrite <- app_assoc, Hm.
Qed.

(** After an initialisation that loaded [m], a batch with the default row
    labels and no [score] column is scored by [m]. *)
Theorem run_after_init argv w f a path m mini_batch (scores : list (cell value)) :
  parse_args argv = Returned f →
  get_model (model_name f) (model_version f)
            (model_tag_name f) (model_tag_value f) = Returned (Some a) →
  get_model_path (aml_name a) (aml_version a) = Returned path →
  joblib_load path = Returned m →
  aligned mini_batch →
  nrows mini_batch ≠ 0 →
  df_index mini_batch = RangeIndex (nrows mini_batch) →
  LStr "score" ∉ df_columns mini_batch →
  Forall2 (predicts m) (df_values mini_batch) scores →
  (run mini_batch (initialise argv w).2).1
  = Returned (Frame (DF (df_index mini_batch)
                        (df_columns mini_batch ++ [LStr "score"])
                        (zip_with (λ row s, row ++ [s])
                                  (df_values mini_batch) scores))).
Proof.
  intros Hp Hg Hl Hj Hal Hne Hidx Hcol Hall.
  rewrite (init_loads _ _ _ argv w f a path m Hp Hg Hl Hj). simpl.
  rewrite (run_scores_by_label _ _ m scores) by done. simpl.
  do 3 f_equal. rewrite Hidx. unfold RangeIndex.
  unfold aligned in Hal. rewrite <- Hal.
  apply (score_by_label_positional [] scores).
  by eapply Forall2_length.
Qed.

End HooksTogether.

(** ** The datastore lookup of the pipeline builder *)

Section DatastoreProperties.
Context {Datastore : Type}.
Context (register_azure_blob_container : blob_registration → outcome Datastore).
Implicit Types (ws : gmap string Datastore) (env : Env).

Local Abbreviation lookup_or_create :=
  (get_or_create_datastore register_azure_blob_container).

(** The container that the flag [input] selects. *)
Local Abbreviation selected env input :=
  (if input then scoring_datastore_input_container env
   else scoring_datastore_output_container env).

(** The lookup asks for at most one registration, and only under the
    requested name, when the workspace has no datastore of that name; the
    registration then carries the storage name and the access key of the
    environment and the container that [input] selects, and its result is
    the result of the lookup. *)
Theorem get_or_create_datastore_registration datastorename ws env input call :
  call ∈ (get_or_create_datastore register_azure_blob_container
            datastorename ws env input).2 →
  (lookup_or_create datastorename ws env input).2 = [call]
  ∧ datastorename = Some (datastore_name call)
  ∧ ws !! datastore_name call = None
  ∧ account_name call = scoring_datastore_storage_name env
  ∧ scoring_datastore_access_key env = Some (account_key call)
  ∧ selected env input = Some (container_name call)
  ∧ (lookup_or_create datastorename ws env input).1
    = register_azure_blob_container call.
Proof.
  unfold get_or_create_datastore.
  destruct datastorename as [name|]; [|by intros ?%elem_of_nil].
  destruct (ws !! name) eqn:Hws; [by intros ?%elem_of_nil|].
  destruct (scoring_datastore_access_key env) as [key|];
    [|by intros ?%elem_of_nil].
  destruct (selected env input) as [container|] eqn:Hc;
    [|by intros ?%elem_of_nil].
  simpl. intros Hin. apply elem_of_cons in Hin as [->|Hin];
    [|by apply elem_of_nil in Hin].
  done.
Qed.

(** The lookup raises an error of its own, having registered nothing,
    exactly when no name is given or the workspace has no datastore of
    that name and the access key or the selected container is unset;
    otherwise it returns the datastore of that name unregistered, or
    registers. *)
Theorem get_or_create_datastore_refuses_iff datastorename ws env input :
  (get_or_create_datastore register_azure_blob_container
     datastorename ws env input).2 = []
  ∧ (∃ msg, (get_or_create_datastore register_azure_blob_container
               datastorename ws env input).1
            = Raised (Exn ValueError msg))
  ↔ datastorename = None
    ∨ (∃ name, datastorename = Some name
               ∧ ws !! name = None
               ∧ (scoring_datastore_access_key env = None
                  ∨ selected env input = None)).
Proof.
  unfold get_or_create_datastore.
  destruct datastorename as [name|].
  2:{ split; [by left|]. intros _. split; [done|]. by eexists. }
  destruct (ws !! name) as [d|] eqn:Hws.
  { simpl. split; [by intros (_ & ? & ?)|].
    intros [|(? & [= <-] & ? & _)]; [done|congruence]. }
  destruct (scoring_datastore_access_key env) as [key|].
  - destruct (selected env input) as [container|].
    + simpl. split; [by intros [? _]|].
      intros [|(? & _ & _ & [|])]; done.
    + split; [|intros _; split; [done|]; by eexists].
      intros _. right. exists name. split; [done|]. split; [done|]. by right.
  - split; [|intros _; split; [done|]; by eexists].
    intros _. right. exists name. split; [done|]. split; [done|]. by left.
Qed.

End DatastoreProperties.

(** * Properties of the registration script *)

Module RegisterFacts.
Import Register.

Section Registration.
Context {metric Dataset Pickled : Type}.
Context
  (AMLModel_list : string → string → outcome (list RegisteredModel))
  (already_registered : string → string → string)
  (Dataset_get_by_id : string → outcome Dataset)
  (AMLModel_register : string → string → gmap string (tag_value metric) →
                       Dataset → outcome RegisteredModel)
  (os_chdir_up : outcome unit).
Implicit Types (log : list (event metric Dataset)).
Implicit Types (model_tags : gmap string metric) (exp : Experiment).

Local Abbreviation register :=
  (register_aml_model AMLModel_list already_registered Dataset_get_by_id
                      AMLModel_register os_chdir_up).

(** The tags handed to [AMLModel.register]. *)
Lemma tags_lookup model_tags exp run_id build_id build_uri k :
  (let tagsValue : gmap string (tag_value metric) :=
     (TagMetric <$> model_tags)
     ∪ <["experiment_name" := TagStr (exp_name exp)]>
         (<["run_id" := TagStr run_id]> {["area" := TagStr "ml_pipeline"]}) in
   if negb (String.eqb build_id "none") then
     let tagsValue := <["BuildId" := TagStr build_id]> tagsValue in
     match build_uri with
     | Some build_uri => <["BuildUri" := TagStr build_uri]> tagsValue
     | None => tagsValue
     end
   else tagsValue) !! k
  = tag_by_precedence model_tags exp run_id build_id build_uri k.
Proof.
  unfold tag_by_precedence. cbv zeta.
  assert (Hbase : ∀ k,
    ((TagMetric <$> model_tags)
     ∪ <["experiment_name" := TagStr (exp_name exp)]>
         (<["run_id" := TagStr run_id]> {["area" := TagStr "ml_pipeline"]})
     : gmap string (tag_value metric)) !! k
    = match model_tags !! k with
      | Some v => Some (TagMetric v)
      | None =>
          if String.eqb k "experiment_name" then Some (TagStr (exp_name exp))
          else if String.eqb k "run_id" then Some (TagStr run_id)
          else if String.eqb k "area" then Some (TagStr "ml_pipeline")
          else None
      end).
  { intros k'. rewrite lookup_union, lookup_fmap.
    destruct (model_tags !! k') as [v|]; simpl.
    - by destruct (_ !! k').
    - rewrite (left_id None _).
      destruct (String.eqb_spec k' "experiment_name") as [->|?];
        [by rewrite lookup_insert_eq|rewrite lookup_insert_ne by done].
      destruct (String.eqb_spec k' "run_id") as [->|?];
        [by rewrite lookup_insert_eq|rewrite lookup_insert_ne by done].
      destruct (String.eqb_spec k' "area") as [->|?];
        [by rewrite lookup_singleton_eq|by rewrite lookup_singleton_ne]. }
  destruct (String.eqb build_id "none"); simpl; [by rewrite Hbase|].
  destruct (String.eqb_spec k "BuildId") as [->|Hid].
  - destruct build_uri; [rewrite lookup_insert_ne by done|];
      by rewrite lookup_insert_eq.
  - destruct (String.eqb_spec k "BuildUri") as [->|Huri].
    + destruct build_uri; [by rewrite lookup_insert_eq|].
      by rewrite lookup_insert_ne, Hbase by done.
    + destruct build_uri; rewrite !lookup_insert_ne by done; by rewrite Hbase.
Qed.

Local Ltac unfold_script :=
  unfold register_aml_model, try_except_reraise, model_already_registered,
    mbind, Script_bind, mret, Script_ret, call, emit, raise.

(** With a build id other than ['none'], a model that [AMLModel.list]
    finds for the name and the run id is not registered again: the script
    prints the finding, the traceback and the failure and raises, and
    [AMLModel.register] is not called. *)
Theorem register_aml_model_already_registered
    model_path model_name model_tags exp run_id dataset_id build_id build_uri
    found others log :
  build_id ≠ "none" →
  AMLModel_list model_name run_id = Returned (found :: others) →
  register_aml_model AMLModel_list already_registered Dataset_get_by_id
    AMLModel_register os_chdir_up
    model_path model_name model_tags exp run_id dataset_id
    build_id build_uri log
  = (Raised (Exn OtherException (already_registered model_name run_id)),
     log ++ [Printed (already_registered model_name run_id);
             TracebackPrinted
               (Exn OtherException (already_registered model_name run_id));
             Printed "Model registration failed"]).
Proof.
  intros Hid Hlist. unfold_script.
  destruct (String.eqb_spec build_id "none") as [|_]; [done|].
  simpl. rewrite Hlist. simpl. by rewrite <- app_assoc.
Qed.

(** Membership of an event in a record of events extended by a few. *)
Local Ltac event_cases H :=
  repeat first
    [ apply elem_of_app in H as [H|H]
    | apply elem_of_cons in H as [H|H]
    | apply elem_of_nil in H; destruct H ];
  try done; try discriminate.

(** Whenever [register_aml_model] calls [AMLModel.register], it does so
    for the model name and path it was given and the dataset found for
    the dataset id, with tags that read by precedence, and, for a build
    id other than ['none'], only after [AMLModel.list] has found no
    model for the name and the run id. *)
Theorem register_aml_model_call
    model_path model_name model_tags exp run_id dataset_id build_id build_uri
    log name path tags dataset :
  RegisterCalled name path tags dataset
  ∈ (register model_path model_name model_tags exp run_id dataset_id
              build_id build_uri log).2 →
  RegisterCalled name path tags dataset ∉ log →
  name = model_name
  ∧ path = model_path
  ∧ Dataset_get_by_id dataset_id = Returned dataset
  ∧ (∀ k, tags !! k
          = tag_by_precedence model_tags exp run_id build_id build_uri k)
  ∧ (build_id ≠ "none" → AMLModel_list model_name run_id = Returned []).
Proof.
  intros Hin Hnew. revert Hin. unfold_script.
  destruct (String.eqb_spec build_id "none") as [Hnone|Hbuild]; simpl.
  - destruct (Dataset_get_by_id dataset_id) as [ds|e]; simpl.
    2:{ destruct (isinstance_Exception e); simpl; intros Hin; event_cases Hin. }
    destruct (AMLModel_register _ _ _ ds) as [rm|e]; simpl.
    2:{ destruct (isinstance_Exception e); simpl; intros Hin; event_cases Hin.
        all: injection Hin as -> -> -> ->.
        all: repeat (split; [done|]); split; [|done].
        all: intros k;
          rewrite <- (tags_lookup model_tags exp run_id build_id build_uri k);
          subst build_id; done. }
    destruct os_chdir_up as [[]|e]; simpl.
    2:{ destruct (isinstance_Exception e); simpl; intros Hin; event_cases Hin.
        all: injection Hin as -> -> -> ->.
        all: repeat (split; [done|]); split; [|done].
        all: intros k;
          rewrite <- (tags_lookup model_tags exp run_id build_id build_uri k);
          subst build_id; done. }
    intros Hin; event_cases Hin. injection Hin as -> -> -> ->.
    repeat (split; [done|]); split; [|done].
    intros k. rewrite <- (tags_lookup model_tags exp run_id build_id build_uri k).
    subst build_id. done.
  - destruct (AMLModel_list model_name run_id) as [[|found others]|e]; simpl.
    2:{ intros Hin; event_cases Hin. }
    2:{ destruct (isinstance_Exception e); simpl; intros Hin; event_cases Hin. }
    assert (Htags : ∀ k,
      (match build_uri with
       | Some build_uri0 =>
           <["BuildUri" := TagStr build_uri0]>
             (<["BuildId" := TagStr build_id]>
                ((TagMetric <$> model_tags)
                 ∪ <["experiment_name" := TagStr (exp_name exp)]>
                     (<["run_id" := TagStr run_id]>
                        {["area" := TagStr "ml_pipeline"]})))
       | None =>
           <["BuildId" := TagStr build_id]>
             ((TagMetric <$> model_tags)
              ∪ <["experiment_name" := TagStr (exp_name exp)]>
                  (<["run_id" := TagStr run_id]>
                     {["area" := TagStr "ml_pipeline"]}))
       end : gmap string (tag_value metric)) !! k
      = tag_by_precedence model_tags exp run_id build_id build_uri k).
    { intros k.
      rewrite <- (tags_lookup model_tags exp run_id build_id build_uri k).
      cbv zeta. by destruct (String.eqb_spec build_id "none"). }
    destruct (Dataset_get_by_id dataset_id) as [ds|e]; simpl.
    2:{ destruct (isinstance_Exception e); simpl; intros Hin; event_cases Hin. }
    destruct (AMLModel_register _ _ _ ds) as [rm|e]; simpl.
    2:{ destruct (isinstance_Exception e); simpl; intros Hin; event_cases Hin.
        all: injection Hin as -> -> -> ->; by repeat (split; [done|]). }
    destruct os_chdir_up as [[]|e]; simpl.
    2:{ destruct (isinstance_Exception e); simpl; intros Hin; event_cases Hin.
        all: injection Hin as -> -> -> ->; by repeat (split; [done|]). }
    intros Hin; event_cases Hin.
    injection Hin as -> -> -> ->; by repeat (split; [done|]).
Qed.

(** [register_aml_model], spelled out. *)
Lemma register_unfold
    model_path model_name model_tags exp run_id dataset_id build_id build_uri
    log :
  register model_path model_name model_tags exp run_id dataset_id
           build_id build_uri log
  = let tags : gmap string (tag_value metric) :=
      let tagsValue : gmap string (tag_value metric) :=
        (TagMetric <$> model_tags)
        ∪ <["experiment_name" := TagStr (exp_name exp)]>
            (<["run_id" := TagStr run_id]> {["area" := TagStr "ml_pipeline"]}) in
      if negb (String.eqb build_id "none") then
        let tagsValue := <["BuildId" := TagStr build_id]> tagsValue in
        match build_uri with
        | Some build_uri => <["BuildUri" := TagStr build_uri]> tagsValue
        | None => tagsValue
        end
      else tagsValue in
    let reraise (e : exn) (l : list (event metric Dataset))
      : outcome () * list (event metric Dataset) :=
      if isinstance_Exception e
      then (Raised e,
            l ++ [TracebackPrinted e; Printed "Model registration failed"])
      else (Raised e, l) in
    let continue (l : list (event metric Dataset)) :=
      match Dataset_get_by_id dataset_id with
      | Raised e => reraise e l
      | Returned ds =>
          match AMLModel_register model_name model_path tags ds with
          | Raised e =>
              reraise e (l ++ [RegisterCalled model_name model_path tags ds])
          | Returned rm =>
              match os_chdir_up with
              | Raised e =>
                  reraise e (l ++ [RegisterCalled model_name model_path tags ds])
              | Returned _ =>
                  (Returned (),
                   l ++ [RegisterCalled model_name model_path tags ds;
                         Printed (registered_message rm)])
              end
          end
      end in
    if String.eqb build_id "none" then continue log
    else
      match AMLModel_list model_name run_id with
      | Raised e => reraise e log
      | Returned [] =>
          continue (log ++ [Printed "Model is not registered for this run."])
      | Returned (_ :: _) =>
          reraise (Exn OtherException (already_registered model_name run_id))
                  (log ++ [Printed (already_registered model_name run_id)])
      end.
Proof.
  unfold_script. cbv zeta.
  destruct (String.eqb build_id "none"); simpl.
  - destruct (Dataset_get_by_id dataset_id) as [ds|e]; simpl; [|done].
    destruct (AMLModel_register _ _ _ ds) as [rm|e]; simpl; [|done].
    destruct os_chdir_up as [[]|e]; simpl; [|done].
    by rewrite <- app_assoc.
  - destruct (AMLModel_list model_name run_id) as [[|found others]|e]; simpl;
      [|done..].
    destruct (Dataset_get_by_id dataset_id) as [ds|e]; simpl; [|done].
    destruct (AMLModel_register _ _ _ ds) as [rm|e]; simpl; [|done].
    destruct os_chdir_up as [[]|e]; simpl; [|done].
    by rewrite <- app_assoc.
Qed.

Local Abbreviation fails :=
  (register_fails AMLModel_list already_registered Dataset_get_by_id
                  AMLModel_register os_chdir_up).

(** The exception of a failing step leaves [register_aml_model]. *)
Lemma register_fails_raises
    model_path model_name model_tags exp run_id dataset_id build_id build_uri
    log e :
  fails model_path model_name model_tags exp run_id dataset_id
        build_id build_uri e →
  (register model_path model_name model_tags exp run_id dataset_id
            build_id build_uri log).1 = Raised e.
Proof.
  intros Hfail.
  pose proof (tags_lookup model_tags exp run_id build_id build_uri) as Hactual.
  cbv zeta in Hactual.
  rewrite register_unfold. cbv zeta.
  match type of Hactual with
  | ∀ k, ?E !! k = _ => set (actual := E) in *
  end.
  assert (Hsame : ∀ tags : gmap string (tag_value metric),
    (∀ k, tags !! k
          = tag_by_precedence model_tags exp run_id build_id build_uri k) →
    tags = actual).
  { intros tags Htags. apply map_eq. intros k. by rewrite Htags, Hactual. }
  destruct Hfail as [e Hid Hlist|found others Hid Hlist|e Hreach Hds
                    |tags ds e Hreach Hds Htags Hreg
                    |tags ds rm e Hreach Hds Htags Hreg Hcd].
  - destruct (String.eqb_spec build_id "none") as [|_]; [done|].
    rewrite Hlist. by destruct (isinstance_Exception e).
  - destruct (String.eqb_spec build_id "none") as [|_]; [done|].
    rewrite Hlist. by destruct (isinstance_Exception _).
  - assert (Hcont :
      (if String.eqb build_id "none" then true
       else match AMLModel_list model_name run_id with
            | Returned [] => true
            | _ => false
            end) = true).
    { destruct Hreach as [-> | ->]; [done|by destruct (String.eqb _ _)]. }
    destruct (String.eqb build_id "none");
      [|destruct (AMLModel_list model_name run_id) as [[|? ?]|?];
        try discriminate];
      rewrite Hds; by destruct (isinstance_Exception e).
  - assert (Hcont :
      (if String.eqb build_id "none" then true
       else match AMLModel_list model_name run_id with
            | Returned [] => true
            | _ => false
            end) = true).
    { destruct Hreach as [-> | ->]; [done|by destruct (String.eqb _ _)]. }
    rewrite (Hsame _ Htags) in Hreg.
    destruct (String.eqb build_id "none");
      [|destruct (AMLModel_list model_name run_id) as [[|? ?]|?];
        try discriminate];
      rewrite Hds, Hreg; by destruct (isinstance_Exception e).
  - assert (Hcont :
      (if String.eqb build_id "none" then true
       else match AMLModel_list model_name run_id with
            | Returned [] => true
            | _ => false
            end) = true).
    { destruct Hreach as [-> | ->]; [done|by destruct (String.eqb _ _)]. }
    rewrite (Hsame _ Htags) in Hreg.
    destruct (String.eqb build_id "none");
      [|destruct (AMLModel_list model_name run_id) as [[|? ?]|?];
        try discriminate];
      rewrite Hds, Hreg, Hcd; by destruct (isinstance_Exception e).
Qed.

(** [register_aml_model] raises nothing of its own: what leaves it is the
    exception of a failing step. *)
Lemma register_raises_fails
    model_path model_name model_tags exp run_id dataset_id build_id build_uri
    log e :
  (register model_path model_name model_tags exp run_id dataset_id
            build_id build_uri log).1 = Raised e →
  fails model_path model_name model_tags exp run_id dataset_id
        build_id build_uri e.
Proof.
  pose proof (tags_lookup model_tags exp run_id build_id build_uri) as Hactual.
  cbv zeta in Hactual.
  rewrite register_unfold. cbv zeta.
  match type of Hactual with
  | ∀ k, ?E !! k = _ => set (actual := E) in *
  end.
  assert (Hre : ∀ x (l : list (event metric Dataset)),
    (if isinstance_Exception x
     then (Raised x : outcome (),
           l ++ [TracebackPrinted x; Printed "Model registration failed"])
     else (Raised x, l)).1 = Raised e → x = e).
  { intros x l. destruct (isinstance_Exception x); simpl; congruence. }
  assert (Hcont : ∀ l,
    not_yet_registered AMLModel_list model_name run_id build_id →
    (match Dataset_get_by_id dataset_id with
     | Returned ds =>
         match AMLModel_register model_name model_path actual ds with
         | Returned rm =>
             match os_chdir_up with
             | Returned _ =>
                 (Returned (),
                  l ++ [RegisterCalled model_name model_path actual ds;
                        Printed (registered_message rm)])
             | Raised e0 =>
                 if isinstance_Exception e0
                 then (Raised e0,
                       (l ++ [RegisterCalled model_name model_path actual ds])
                       ++ [TracebackPrinted e0;
                           Printed "Model registration failed"])
                 else (Raised e0,
                       l ++ [RegisterCalled model_name model_path actual ds])
             end
         | Raised e0 =>
             if isinstance_Exception e0
             then (Raised e0,
                   (l ++ [RegisterCalled model_name model_path actual ds])
                   ++ [TracebackPrinted e0;
                       Printed "Model registration failed"])
             else (Raised e0,
                   l ++ [RegisterCalled model_name model_path actual ds])
         end
     | Raised e0 =>
         if isinstance_Exception e0
         then (Raised e0,
               l ++ [TracebackPrinted e0; Printed "Model registration failed"])
         else (Raised e0, l)
     end).1 = Raised e →
    fails model_path model_name model_tags exp run_id dataset_id
          build_id build_uri e).
  { intros l Hreach.
    destruct (Dataset_get_by_id dataset_id) as [ds|e1] eqn:Hds.
    2:{ intros <-%Hre. by apply dataset_raises. }
    destruct (AMLModel_register _ _ _ ds) as [rm|e2] eqn:Hreg.
    2:{ intros <-%Hre. by eapply register_raises. }
    destruct os_chdir_up as [[]|e3] eqn:Hcd; [discriminate|].
    intros <-%Hre. by eapply chdir_raises. }
  destruct (String.eqb_spec build_id "none") as [Hnone|Hbuild].
  - apply Hcont. by left.
  - destruct (AMLModel_list model_name run_id) as [[|found others]|e0] eqn:Hlist.
    + apply Hcont. by right.
    + intros <-%Hre. by eapply model_found.
    + intros <-%Hre. by apply list_raises.
Qed.

(** What is printed last when an [Exception] leaves. *)
Lemma register_raises_log
    model_path model_name model_tags exp run_id dataset_id build_id build_uri
    log e :
  (register model_path model_name model_tags exp run_id dataset_id
            build_id build_uri log).1 = Raised e →
  isinstance_Exception e = true →
  ∃ earlier,
    (register model_path model_name model_tags exp run_id dataset_id
              build_id build_uri log).2
    = earlier ++ [TracebackPrinted e; Printed "Model registration failed"].
Proof.
  rewrite register_unfold. cbv zeta.
  destruct (String.eqb build_id "none");
    [|destruct (AMLModel_list model_name run_id) as [[|found others]|e0]];
    try destruct (Dataset_get_by_id dataset_id) as [ds|e1];
    try destruct (AMLModel_register _ _ _ ds) as [rm|e2];
    try destruct os_chdir_up as [[]|e3];
    simpl; try discriminate;
    intros Heq He;
    repeat match goal with
    | H : (if isinstance_Exception ?x then _ else _).1 = _ |- _ =>
        let Hx := fresh "Hx" in
        destruct (isinstance_Exception x) eqn:Hx; simpl in H
    | |- context [if isinstance_Exception ?x then _ else _] =>
        let Hx := fresh "Hx" in
        destruct (isinstance_Exception x) eqn:Hx; simpl
    end;
    try (injection Heq as <-); try congruence; by eexists.
Qed.

(** [register_aml_model] does not swallow: it raises exactly when one of
    its steps fails, and then the exception of that step; when that is an
    [Exception], the traceback and the line about the failure have been
    printed as the last two events. *)
Theorem register_aml_model_reraises
    model_path model_name model_tags exp run_id dataset_id build_id build_uri
    log e :
  register_fails AMLModel_list already_registered Dataset_get_by_id
    AMLModel_register os_chdir_up
    model_path model_name model_tags exp run_id dataset_id build_id build_uri e
  ↔ ((register_aml_model AMLModel_list already_registered Dataset_get_by_id
        AMLModel_register os_chdir_up
        model_path model_name model_tags exp run_id dataset_id
        build_id build_uri log).1 = Raised e
     ∧ (isinstance_Exception e = true →
        ∃ earlier,
          (register_aml_model AMLModel_list already_registered
             Dataset_get_by_id AMLModel_register os_chdir_up
             model_path model_name model_tags exp run_id dataset_id
             build_id build_uri log).2
          = earlier ++ [TracebackPrinted e;
                        Printed "Model registration failed"])).
Proof.
  split.
  - intros Hfail.
    pose proof (register_fails_raises _ _ _ _ _ _ _ _ log e Hfail) as Hraise.
    split; [done|]. by apply register_raises_log.
  - intros [Hraise _]. by eapply register_raises_fails.
Qed.

(** [register_aml_model] returns only after [AMLModel.register] and
    [os.chdir] have returned: its last two events are then the call and
    the line about the registered model. *)
Theorem register_aml_model_returns
    model_path model_name model_tags exp run_id dataset_id build_id build_uri
    log :
  (register model_path model_name model_tags exp run_id dataset_id
            build_id build_uri log).1 = Returned () →
  ∃ earlier tags dataset model,
    (register model_path model_name model_tags exp run_id dataset_id
              build_id build_uri log).2
    = earlier ++ [RegisterCalled model_name model_path tags dataset;
                  Printed (registered_message model)]
    ∧ Dataset_get_by_id dataset_id = Returned dataset
    ∧ AMLModel_register model_name model_path tags dataset = Returned model
    ∧ os_chdir_up = Returned ().
Proof.
  rewrite register_unfold. cbv zeta.
  destruct (String.eqb build_id "none");
    [|destruct (AMLModel_list model_name run_id) as [[|found others]|e0]];
    try destruct (Dataset_get_by_id dataset_id) as [ds|e1] eqn:Hds;
    try destruct (AMLModel_register _ _ _ ds) as [rm|e2] eqn:Hrm;
    try destruct os_chdir_up as [[]|e3] eqn:Hcd;
    simpl;
    repeat match goal with
    | |- context [if isinstance_Exception ?x then _ else _] =>
        destruct (isinstance_Exception x); simpl
    end;
    try discriminate;
    intros _; eexists _, _, _, _; by repeat split.
Qed.

End Registration.

(** With the build id ['none'], which is the default, the registry is not
    asked whether the model is already registered and the build uri is
    left aside: neither [AMLModel.list] nor the build uri has any
    influence on what [register_aml_model] does. *)
Theorem register_aml_model_without_build {metric Dataset : Type}
    (list1 list2 : string → string → outcome (list RegisteredModel))
    (already_registered : string → string → string)
    (Dataset_get_by_id : string → outcome Dataset)
    (AMLModel_register : string → string → gmap string (tag_value metric) →
                         Dataset → outcome RegisteredModel)
    (os_chdir_up : outcome unit)
    model_path model_name (model_tags : gmap string metric) exp
    run_id dataset_id build_uri (log : list (event metric Dataset)) :
  register_aml_model list1 already_registered Dataset_get_by_id
    AMLModel_register os_chdir_up
    model_path model_name model_tags exp run_id dataset_id "none" build_uri log
  = register_aml_model list2 already_registered Dataset_get_by_id
      AMLModel_register os_chdir_up
      model_path model_name model_tags exp run_id dataset_id "none" None log.
Proof. reflexivity. Qed.

(** ** The main function of the registration script *)

Section Main.
Context {metric Dataset Pickled : Type}.
Context
  (AMLModel_list : string → string → outcome (list RegisteredModel))
  (already_registered : string → string → string)
  (Dataset_get_by_id : string → outcome Dataset)
  (AMLModel_register : string → string → gmap string (tag_value metric) →
                       Dataset → outcome RegisteredModel)
  (os_chdir_up : outcome unit)
  (parent_id : string)
  (exp : Experiment)
  (parameters_json : outcome (gmap string (gmap string (list string))))
  (parent_metrics : gmap string metric)
  (parent_tags : gmap string string)
  (joblib_load : string → outcome (option Pickled))
  (tags_repr : gmap string string → string).
Implicit Types (log : list (event metric Dataset)).

Local Abbreviation register :=
  (register_aml_model AMLModel_list already_registered Dataset_get_by_id
                      AMLModel_register os_chdir_up).
Local Abbreviation collect :=
  (collect_model_tags (Dataset:=Dataset) parent_metrics).
Local Abbreviation tag_or_none :=
  (tag_or_None (metric:=metric) (Dataset:=Dataset) parent_tags tags_repr).
Local Abbreviation main_function :=
  (main AMLModel_list already_registered Dataset_get_by_id AMLModel_register
        os_chdir_up parent_id exp parameters_json parent_metrics parent_tags
        joblib_load tags_repr).

Lemma only_prints_refl log : only_prints log log.
Proof. exists []. by rewrite app_nil_r. Qed.

Lemma only_prints_trans log1 log2 log3 :
  only_prints log1 log2 → only_prints log2 log3 → only_prints log1 log3.
Proof.
  intros [p1 ->] [p2 ->]. exists (p1 ++ p2).
  by rewrite fmap_app, app_assoc.
Qed.

Lemma only_prints_emit log s : only_prints log (log ++ [Printed s]).
Proof. by exists [s]. Qed.

(** The loop over the requested tags returns the metrics found under
    them, added to those collected before, and prints only. *)
Lemma collect_model_tags_spec tags (acc : gmap string metric) log :
  ∃ model_tags log',
    collect tags acc log = (Returned model_tags, log')
    ∧ only_prints log log'
    ∧ ∀ k, model_tags !! k
           = if decide (k ∈ tags)
             then match parent_metrics !! k with
                  | Some v => Some v
                  | None => acc !! k
                  end
             else acc !! k.
Proof.
  revert acc log. induction tags as [|tag rest IH]; intros acc log.
  - exists acc, log. split; [done|]. split; [apply only_prints_refl|].
    intros k. by rewrite decide_False by apply not_elem_of_nil.
  - simpl. destruct (parent_metrics !! tag) as [v|] eqn:Htag.
    + destruct (IH (<[tag := v]> acc) log) as (mt & log' & -> & Hp & Hmt).
      exists mt, log'. split; [done|]. split; [done|].
      intros k. rewrite Hmt.
      destruct (decide (k = tag)) as [->|Hne].
      * rewrite Htag, lookup_insert_eq.
        rewrite (decide_True (P := tag ∈ tag :: rest)) by apply list_elem_of_here.
        by case_decide.
      * rewrite lookup_insert_ne by done.
        destruct (decide (k ∈ rest)) as [Hin|Hout].
        -- by rewrite decide_True by (by apply list_elem_of_further).
        -- rewrite decide_False; [done|].
           intros [?|?]%elem_of_cons; done.
    + unfold mbind, Script_bind, emit.
      destruct (IH acc (log ++ [Printed ("Could not find " ++ tag
                                         ++ " metric on parent run.")]))
        as (mt & log' & -> & Hp & Hmt).
      exists mt, log'. split; [done|].
      split; [eapply only_prints_trans; [apply only_prints_emit|done]|].
      intros k. rewrite Hmt.
      destruct (decide (k = tag)) as [->|Hne].
      * rewrite Htag.
        rewrite (decide_True (P := tag ∈ tag :: rest)) by apply list_elem_of_here.
        by case_decide.
      * destruct (decide (k ∈ rest)) as [Hin|Hout].
        -- by rewrite decide_True by (by apply list_elem_of_further).
        -- rewrite decide_False; [done|].
           intros [?|?]%elem_of_cons; done.
Qed.

Lemma tag_or_None_spec key log :
  ∃ log', tag_or_none key log = (Returned (parent_tags !! key), log')
          ∧ only_prints log log'.
Proof.
  unfold tag_or_None. destruct (parent_tags !! key).
  - eexists. split; [done|]. apply only_prints_refl.
  - unfold mbind, Script_bind, emit, mret, Script_ret. eexists. split; [done|].
    eapply only_prints_trans; apply only_prints_emit.
Qed.

(** [main] up to the registration, when the parameters are read, the
    step input is given and the model file is loaded. *)
Lemma main_prelude args log pars tags p model :
  parameters_json = Returned pars →
  requested_tags pars = Some tags →
  args_step_input args = Some p →
  joblib_load (os_path_join p (args_model_name args)) = Returned model →
  ∃ model_tags log',
    only_prints log log'
    ∧ (∀ k, model_tags !! k
            = if decide (k ∈ tags) then parent_metrics !! k else None)
    ∧ main_function args log
      = match model with
        | Some _ =>
            match parent_tags !! "dataset_id" with
            | None => (Raised (KeyError "dataset_id"), log')
            | Some dataset_id =>
                register (os_path_join p (args_model_name args))
                  (args_model_name args) model_tags exp
                  (effective_run_id parent_id args) dataset_id
                  (default "none" (parent_tags !! "BuildId"))
                  (match parent_tags !! "BuildId" with
                   | Some _ => parent_tags !! "BuildUri"
                   | None => None
                   end) log'
            end
        | None =>
            (Raised SystemExit_0,
             log' ++ [Printed "Model not found. Skipping model registration."])
        end.
Proof.
  intros Hpars Htags Hstep Hload.
  assert (Hrun : (if String.eqb (match args_run_id args with
                                 | Some r => r
                                 | None => "amlcompute"
                                 end) "amlcompute"
                  then parent_id
                  else match args_run_id args with
                       | Some r => r
                       | None => "amlcompute"
                       end) = effective_run_id parent_id args).
  { unfold effective_run_id. by destruct (args_run_id args). }
  unfold main. cbv zeta. rewrite Hrun, Hstep. clear Hrun.
  unfold mbind at 1, Script_bind at 1, emit at 1.
  unfold mbind at 1, Script_bind at 1, call at 1. rewrite Hpars.
  set (log0 := log ++ [Printed "Getting registration parameters"]).
  assert (Hp0 : only_prints log log0) by apply only_prints_emit.
  unfold requested_tags in Htags.
  unfold mbind at 1, Script_bind at 1.
  assert (∃ log1, only_prints log0 log1
    ∧ (match pars !! "registration" with
       | Some register_args => mret register_args
       | None =>
           emit (Printed "Could not load registration values from file");;
           mret {["tags" := []]}
       end : Script metric Dataset _) log0
      = (Returned (default {["tags" := []]} (pars !! "registration")), log1)
    ∧ default {["tags" := []]} (pars !! "registration") !! "tags" = Some tags)
    as (log1 & Hp1 & -> & Hreg).
  { destruct (pars !! "registration") as [register_args|]; simpl.
    - exists log0. split; [apply only_prints_refl|done].
    - eexists. split; [apply only_prints_emit|]. split; [done|].
      by rewrite lookup_singleton_eq. }
  unfold mbind at 1, Script_bind at 1. rewrite Hreg.
  unfold mret at 1, Script_ret at 1.
  unfold mbind at 1, Script_bind at 1.
  destruct (collect_model_tags_spec tags ∅ log1) as (mt & log2 & -> & Hp2 & Hmt).
  unfold mbind at 1, Script_bind at 1, mret at 1, Script_ret at 1.
  unfold mbind at 1, Script_bind at 1, emit at 1.
  set (log3 := log2 ++ [Printed ("Loading model from " ++ p)]).
  assert (Hp3 : only_prints log2 log3) by apply only_prints_emit.
  unfold mbind at 1, Script_bind at 1, call at 1. rewrite Hload.
  unfold mbind at 1, Script_bind at 1.
  destruct (tag_or_None_spec "BuildId" log3) as (log4 & -> & Hp4).
  unfold mbind at 1, Script_bind at 1.
  destruct (tag_or_None_spec "BuildUri" log4) as (log5 & -> & Hp5).
  assert (Hp : only_prints log log5).
  { repeat (eapply only_prints_trans; [eassumption|]). apply only_prints_refl. }
  exists mt, log5. split; [done|]. split.
  { intros k. rewrite Hmt, lookup_empty. by destruct (parent_metrics !! k). }
  destruct model as [obj|]; [|done].
  unfold mbind at 1, Script_bind at 1.
  destruct (parent_tags !! "dataset_id") as [d|]; [|done].
  unfold mret at 1, Script_ret at 1.
  destruct (parent_tags !! "BuildId") as [b|]; [|done].
  by destruct (parent_tags !! "BuildUri").
Qed.

(** The tags that [main] collects for the model are the metrics of the
    parent run under the requested names: a requested name without a
    metric is skipped with a printed line, a metric that was not
    requested is left out. *)
Theorem collect_model_tags_restricts tags log :
  ∃ model_tags log',
    collect tags ∅ log = (Returned model_tags, log')
    ∧ only_prints log log'
    ∧ ∀ k, model_tags !! k
           = if decide (k ∈ tags) then parent_metrics !! k else None.
Proof.
  destruct (collect_model_tags_spec tags ∅ log) as (mt & log' & Hc & Hp & Hmt).
  exists mt, log'. split; [done|]. split; [done|].
  intros k. rewrite Hmt, lookup_empty. by destruct (parent_metrics !! k).
Qed.

(** When the parameters are read, the step input is given, the model
    file holds a model and the parent run has a [dataset_id] tag, [main]
    prints and then does what [register_aml_model] does for the file
    joined from step input and model name, the metrics under the
    requested tags, the parent's run id unless another one than
    [amlcompute] was given, the build id of the parent or ['none'], and
    the build uri of the parent only if it has a build id. *)
Theorem main_registers args log pars tags p obj dataset_id :
  parameters_json = Returned pars →
  requested_tags pars = Some tags →
  args_step_input args = Some p →
  joblib_load (os_path_join p (args_model_name args)) = Returned (Some obj) →
  parent_tags !! "dataset_id" = Some dataset_id →
  ∃ model_tags log',
    only_prints log log'
    ∧ (∀ k, model_tags !! k
            = if decide (k ∈ tags) then parent_metrics !! k else None)
    ∧ main_function args log
      = register (os_path_join p (args_model_name args))
          (args_model_name args) model_tags exp
          (effective_run_id parent_id args) dataset_id
          (default "none" (parent_tags !! "BuildId"))
          (match parent_tags !! "BuildId" with
           | Some _ => parent_tags !! "BuildUri"
           | None => None
           end) log'.
Proof.
  intros Hpars Htags Hstep Hload Hd.
  destruct (main_prelude args log pars tags p (Some obj) Hpars Htags Hstep Hload)
    as (mt & log' & Hp & Hmt & Hmain).
  rewrite Hd in Hmain. by exists mt, log'.
Qed.

(** A parent run without a [dataset_id] tag makes [main] raise the
    [KeyError] of that key after the model file has been loaded: nothing
    but printing has happened, nothing is registered. *)
Theorem main_without_dataset_id args log pars tags p obj :
  parameters_json = Returned pars →
  requested_tags pars = Some tags →
  args_step_input args = Some p →
  joblib_load (os_path_join p (args_model_name args)) = Returned (Some obj) →
  parent_tags !! "dataset_id" = None →
  ∃ log', only_prints log log'
          ∧ main_function args log = (Raised (KeyError "dataset_id"), log').
Proof.
  intros Hpars Htags Hstep Hload Hd.
  destruct (main_prelude args log pars tags p (Some obj) Hpars Htags Hstep Hload)
    as (mt & log' & Hp & Hmt & Hmain).
  rewrite Hd in Hmain. by exists log'.
Qed.

(** A model file that holds [None] makes [main] leave with
    [SystemExit(0)], whatever the tags of the parent run: nothing but
    printing has happened, nothing is registered. *)
Theorem main_without_model args log pars tags p :
  parameters_json = Returned pars →
  requested_tags pars = Some tags →
  args_step_input args = Some p →
  joblib_load (os_path_join p (args_model_name args)) = Returned None →
  ∃ log', only_prints log log'
          ∧ main_function args log = (Raised SystemExit_0, log')
          ∧ isinstance_Exception SystemExit_0 = false.
Proof.
  intros Hpars Htags Hstep Hload.
  destruct (main_prelude args log pars tags p None Hpars Htags Hstep Hload)
    as (mt & log' & Hp & Hmt & Hmain).
  eexists. split; [|by split].
  eapply only_prints_trans; [exact Hp|apply only_prints_emit].
Qed.

End Main.

End RegisterFacts.

(** * The further properties at sample inputs *)

Lemma parse_args_on_paired_vector_witness :
  parse_args ["driver.py"; "--model_name"; "m";
              "--model_tag_name"; "k"; "--model_tag_value"; "v"]
  = Returned (MkFilter "m" None (Some "k") (Some "v")).
Proof.
  apply (parse_args_on_paired_vector
           ["driver.py"; "--model_name"; "m";
            "--model_tag_name"; "k"; "--model_tag_value"; "v"]).
  pairs.
Defined.

Lemma parse_args_returns_iff_witness :
  ∃ f, parse_args ["driver.py"; "--model_name"; "m"; "--model_version"; "3"]
       = Returned f.
Proof.
  apply (proj2 (parse_args_returns_iff
                  ["driver.py"; "--model_name"; "m"; "--model_version"; "3"])).
  split; [by repeat constructor|]. split; [pairs|].
  intros Hin. exfalso. revert Hin. absent.
Defined.

Lemma parse_args_errors_witness :
  (index_out_of_range = model_name_required
   ∧ "--model_name" ∉ ["driver.py"; "--model_name"])
  ∨ (index_out_of_range = index_out_of_range
     ∧ "--model_name" ∈ ["driver.py"; "--model_name"]
     ∧ (¬ paired ["driver.py"; "--model_name"]
        ∨ ("--model_tag_value" ∈ ["driver.py"; "--model_name"]
           ∧ "--model_tag_name" ∉ ["driver.py"; "--model_name"]))).
Proof.
  apply (parse_args_errors ["driver.py"; "--model_name"] index_out_of_range).
  reflexivity.
Defined.

Lemma parse_args_scoring_step_arguments_witness :
  parse_args (["driver.py"]
              ++ scoring_step_arguments parameter_default parameter_default
                   parameter_default parameter_default
              ++ ["--logging_level"; "INFO"])
  = Returned (MkFilter " " None None None).
Proof.
  apply (parse_args_scoring_step_arguments ["driver.py"]
           ["--logging_level"; "INFO"] " " " " " " " ").
  - repeat constructor; absent.
  - repeat constructor; absent.
  - repeat constructor; absent.
Defined.

Lemma run_never_raises_witness :
  ∃ v, (run batch_default (ready failing_model)).1 = Returned v.
Proof.
  apply (run_never_raises batch_default (ready failing_model)).
  intros m x e [= <-] Hraise. simpl in Hraise.
  repeat case_match; try discriminate. by injection Hraise as <-.
Defined.

Lemma run_empty_list_iff_witness :
  (run batch_empty (ready constant_model)).1 = Returned EmptyList.
Proof.
  apply (proj2 (run_empty_list_iff batch_empty (ready constant_model))).
  left. reflexivity.
Defined.

Lemma run_unloaded_returns_None_witness :
  run batch_default fresh
  = (Returned PyNone,
     MkWorld ([] ++ ["'NoneType' object has no attribute 'predict'"]) None []).
Proof.
  apply (run_unloaded_returns_None batch_default fresh);
    [reflexivity|discriminate|discriminate].
Defined.

Lemma run_frame_preserves_input_witness :
  ∃ out w',
    run batch_default (ready constant_model) = (Returned (Frame out), w')
    ∧ df_index out = df_index batch_default
    ∧ df_columns out = df_columns batch_default ++ [LStr "score"]
    ∧ (LStr "score" ∉ df_columns batch_default)
    ∧ (∃ extra : label → list (cell Z),
         df_values out
         = zip_with (λ l row, row ++ extra l)
                    (df_index batch_default) (df_values batch_default))
    ∧ w' = after_calls (ready constant_model) (iterrows batch_default).*2.
Proof.
  eexists _, _. split; [reflexivity|].
  apply (run_frame_preserves_input batch_default (ready constant_model)).
  reflexivity.
Defined.

Lemma run_score_column_taken_witness :
  (∀ out, (run batch_with_score (ready constant_model)).1
          ≠ Returned (Frame out))
  ∧ ∀ m scores,
      model (ready constant_model) = Some m →
      aligned batch_with_score →
      nrows batch_with_score ≠ 0 →
      Forall2 (yields m) (df_values batch_with_score) scores →
      (nrows batch_with_score = 1 →
       Forall (λ row, ¬ yields_scalar m row) (df_values batch_with_score)) →
      run batch_with_score (ready constant_model)
      = (Returned PyNone,
         MkWorld ([] ++ [("columns overlap but no suffix specified: "
                          ++ Index_str [LStr "score"])%string])
                 (Some constant_model)
                 ([] ++ call_args (df_values batch_with_score))).
Proof.
  apply (run_score_column_taken batch_with_score (ready constant_model)).
  by repeat constructor.
Defined.

Lemma init_never_raises_witness :
  ∃ w', init empty_registry no_path no_load
             ["driver.py"; "--model_name"; "m"] fresh = (Returned (), w').
Proof.
  apply (init_never_raises empty_registry no_path no_load
           ["driver.py"; "--model_name"; "m"] fresh).
  intros e Hfail.
  destruct Hfail as [e Hp|f e Hp Hg|f Hp Hg|f a e Hp Hg Hl|f a path e Hp Hg Hl Hj];
    try discriminate; reflexivity.
Defined.

Lemma run_after_failed_init_witness :
  run batch_default
      (init empty_registry no_path no_load ["driver.py"] fresh).2
  = (Returned PyNone,
     MkWorld ([] ++ ["Initializing batch scoring script...";
                     ("Error: " ++ exn_str model_name_required)%string;
                     "'NoneType' object has no attribute 'predict'"])
             None []).
Proof.
  apply (run_after_failed_init empty_registry no_path no_load
           ["driver.py"] fresh model_name_required batch_default).
  - by apply fails_resolver.
  - reflexivity.
  - reflexivity.
  - discriminate.
  - discriminate.
Defined.

Lemma run_after_init_witness :
  (run batch_default
       (init one_model_registry one_path constant_load
             ["driver.py"; "--model_name"; "m"] fresh).2).1
  = Returned (Frame (DF (df_index batch_default)
                        (df_columns batch_default ++ [LStr "score"])
                        (zip_with (λ row s, row ++ [s])
                                  (df_values batch_default)
                                  [Val 7%Z; Val 7%Z; Val 7%Z]))).
Proof.
  apply (run_after_init one_model_registry one_path constant_load
           ["driver.py"; "--model_name"; "m"] fresh
           (MkFilter "m" None None None)
           {| aml_name := "m"; aml_version := 3 |} "azureml-models/m"
           constant_model batch_default [Val 7%Z; Val 7%Z; Val 7%Z]).
  - reflexivity.
  - reflexivity.
  - reflexivity.
  - reflexivity.
  - reflexivity.
  - discriminate.
  - reflexivity.
  - absent.
  - repeat constructor; eexists; split; reflexivity.
Defined.

Lemma get_or_create_datastore_registration_witness :
  (get_or_create_datastore echo_registration (Some "store_in") ∅
     input_only_env true).2
  = [MkBlobRegistration "store_in" (Some "store") "key" "in"]
  ∧ Some "store_in" = Some "store_in"
  ∧ (∅ : gmap string string) !! "store_in" = None
  ∧ Some "store" = scoring_datastore_storage_name input_only_env
  ∧ scoring_datastore_access_key input_only_env = Some "key"
  ∧ scoring_datastore_input_container input_only_env = Some "in"
  ∧ (get_or_create_datastore echo_registration (Some "store_in") ∅
       input_only_env true).1
    = echo_registration (MkBlobRegistration "store_in" (Some "store") "key" "in").
Proof.
  apply (get_or_create_datastore_registration echo_registration
           (Some "store_in") ∅ input_only_env true
           (MkBlobRegistration "store_in" (Some "store") "key" "in")).
  by constructor.
Defined.

Lemma get_or_create_datastore_refuses_iff_witness :
  (get_or_create_datastore echo_registration (Some "store_out") ∅
     input_only_env false).2 = []
  ∧ ∃ msg, (get_or_create_datastore echo_registration (Some "store_out") ∅
              input_only_env false).1 = Raised (Exn ValueError msg).
Proof.
  apply (proj2 (get_or_create_datastore_refuses_iff echo_registration
                  (Some "store_out") ∅ input_only_env false)).
  right. exists "store_out". split; [reflexivity|]. split; [reflexivity|].
  right. reflexivity.
Defined.

Lemma register_aml_model_already_registered_witness :
  Register.register_aml_model RegisterSample.one_listed
    RegisterSample.tuple_text RegisterSample.dataset_by_id
    RegisterSample.registering RegisterSample.chdir_done
    "outputs/ml_model.pkl" "ml_model.pkl" RegisterSample.metrics
    RegisterSample.experiment "run-1" "ds-1" "42" None []
  = (Raised (Exn OtherException
               (RegisterSample.tuple_text "ml_model.pkl" "run-1")),
     [] ++ [Register.Printed (RegisterSample.tuple_text "ml_model.pkl" "run-1");
            Register.TracebackPrinted
              (Exn OtherException
                 (RegisterSample.tuple_text "ml_model.pkl" "run-1"));
            Register.Printed "Model registration failed"]).
Proof.
  apply (RegisterFacts.register_aml_model_already_registered
           RegisterSample.one_listed RegisterSample.tuple_text
           RegisterSample.dataset_by_id RegisterSample.registering
           RegisterSample.chdir_done
           "outputs/ml_model.pkl" "ml_model.pkl" RegisterSample.metrics
           RegisterSample.experiment "run-1" "ds-1" "42" None
           {| Register.reg_name := "ml_model.pkl";
              Register.reg_description := "None";
              Register.reg_version := "1" |} [] []).
  - discriminate.
  - reflexivity.
Defined.

Lemma register_aml_model_reraises_witness :
  (Register.register_aml_model RegisterSample.nothing_listed
     RegisterSample.tuple_text RegisterSample.dataset_missing
     RegisterSample.registering RegisterSample.chdir_done
     "outputs/ml_model.pkl" "ml_model.pkl" RegisterSample.metrics
     RegisterSample.experiment "run-1" "ds-1" "42" None []).1
  = Raised (Exn OtherException "dataset not found")
  ∧ (isinstance_Exception (Exn OtherException "dataset not found") = true →
     ∃ earlier,
       (Register.register_aml_model RegisterSample.nothing_listed
          RegisterSample.tuple_text RegisterSample.dataset_missing
          RegisterSample.registering RegisterSample.chdir_done
          "outputs/ml_model.pkl" "ml_model.pkl" RegisterSample.metrics
          RegisterSample.experiment "run-1" "ds-1" "42" None []).2
       = earlier ++ [Register.TracebackPrinted
                       (Exn OtherException "dataset not found");
                     Register.Printed "Model registration failed"]).
Proof.
  apply (proj1 (RegisterFacts.register_aml_model_reraises
           RegisterSample.nothing_listed RegisterSample.tuple_text
           RegisterSample.dataset_missing RegisterSample.registering
           RegisterSample.chdir_done
           "outputs/ml_model.pkl" "ml_model.pkl" RegisterSample.metrics
           RegisterSample.experiment "run-1" "ds-1" "42" None []
           (Exn OtherException "dataset not found"))).
  apply Register.dataset_raises; [right|]; reflexivity.
Defined.

Lemma register_aml_model_returns_witness :
  ∃ earlier tags dataset model,
    (Register.register_aml_model RegisterSample.nothing_listed
       RegisterSample.tuple_text RegisterSample.dataset_by_id
       RegisterSample.registering RegisterSample.chdir_done
       "outputs/ml_model.pkl" "ml_model.pkl" RegisterSample.metrics
       RegisterSample.experiment "run-1" "ds-1" "42" None []).2
    = earlier ++ [Register.RegisterCalled "ml_model.pkl" "outputs/ml_model.pkl"
                    tags dataset;
                  Register.Printed (Register.registered_message model)]
    ∧ RegisterSample.dataset_by_id "ds-1" = Returned dataset
    ∧ RegisterSample.registering "ml_model.pkl" "outputs/ml_model.pkl"
        tags dataset = Returned model
    ∧ RegisterSample.chdir_done = Returned ().
Proof.
  apply (RegisterFacts.register_aml_model_returns
           RegisterSample.nothing_listed RegisterSample.tuple_text
           RegisterSample.dataset_by_id RegisterSample.registering
           RegisterSample.chdir_done
           "outputs/ml_model.pkl" "ml_model.pkl" RegisterSample.metrics
           RegisterSample.experiment "run-1" "ds-1" "42" None []).
  reflexivity.
Defined.

Lemma register_aml_model_call_witness :
  ∃ tags : gmap string (Register.tag_value Z),
    "ml_model.pkl" = "ml_model.pkl"
    ∧ "outputs/ml_model.pkl" = "outputs/ml_model.pkl"
    ∧ RegisterSample.dataset_by_id "ds-1" = Returned "ds-1"
    ∧ (∀ k, tags !! k
            = Register.tag_by_precedence RegisterSample.metrics
                RegisterSample.experiment "run-1" "42" None k)
    ∧ ("42" ≠ "none" →
       RegisterSample.nothing_listed "ml_model.pkl" "run-1" = Returned []).
Proof.
  eexists.
  apply (RegisterFacts.register_aml_model_call
           RegisterSample.nothing_listed RegisterSample.tuple_text
           RegisterSample.dataset_by_id RegisterSample.registering
           RegisterSample.chdir_done
           "outputs/ml_model.pkl" "ml_model.pkl" RegisterSample.metrics
           RegisterSample.experiment "run-1" "ds-1" "42" None []).
  - rewrite RegisterFacts.register_unfold. cbv zeta.
    cbn -[insert union fmap singletonM].
    apply list_elem_of_further, list_elem_of_here.
  - apply not_elem_of_nil.
Defined.

Lemma main_registers_witness :
  ∃ model_tags log',
    Register.only_prints [] log'
    ∧ (∀ k, model_tags !! k
            = if decide (k ∈ ["mse"; "r2"])
              then RegisterSample.metrics !! k else None)
    ∧ Register.main RegisterSample.nothing_listed RegisterSample.tuple_text
        RegisterSample.dataset_by_id RegisterSample.registering
        RegisterSample.chdir_done "parent-run" RegisterSample.experiment
        RegisterSample.parameters RegisterSample.metrics
        RegisterSample.tags_with_dataset RegisterSample.load_some
        RegisterSample.dict_text RegisterSample.arguments []
      = Register.register_aml_model RegisterSample.nothing_listed
          RegisterSample.tuple_text RegisterSample.dataset_by_id
          RegisterSample.registering RegisterSample.chdir_done
          (Register.os_path_join "outputs" "ml_model.pkl") "ml_model.pkl"
          model_tags RegisterSample.experiment
          (Register.effective_run_id "parent-run" RegisterSample.arguments)
          "ds-1"
          (default "none" (RegisterSample.tags_with_dataset !! "BuildId"))
          (match RegisterSample.tags_with_dataset !! "BuildId" with
           | Some _ => RegisterSample.tags_with_dataset !! "BuildUri"
           | None => None
           end) log'.
Proof.
  apply (RegisterFacts.main_registers
           RegisterSample.nothing_listed RegisterSample.tuple_text
           RegisterSample.dataset_by_id RegisterSample.registering
           RegisterSample.chdir_done "parent-run" RegisterSample.experiment
           RegisterSample.parameters RegisterSample.metrics
           RegisterSample.tags_with_dataset RegisterSample.load_some
           RegisterSample.dict_text RegisterSample.arguments []
           {["registration" := {["tags" := ["mse"; "r2"]]}]}
           ["mse"; "r2"] "outputs" () "ds-1").
  - reflexivity.
  - reflexivity.
  - reflexivity.
  - reflexivity.
  - reflexivity.
Defined.

Lemma main_without_dataset_id_witness :
  ∃ log',
    Register.only_prints [] log'
    ∧ Register.main RegisterSample.nothing_listed RegisterSample.tuple_text
        RegisterSample.dataset_by_id RegisterSample.registering
        RegisterSample.chdir_done "parent-run" RegisterSample.experiment
        RegisterSample.parameters RegisterSample.metrics
        RegisterSample.tags_without_dataset RegisterSample.load_some
        RegisterSample.dict_text RegisterSample.arguments []
      = (Raised (Register.KeyError "dataset_id"), log').
Proof.
  apply (RegisterFacts.main_without_dataset_id
           RegisterSample.nothing_listed RegisterSample.tuple_text
           RegisterSample.dataset_by_id RegisterSample.registering
           RegisterSample.chdir_done "parent-run" RegisterSample.experiment
           RegisterSample.parameters RegisterSample.metrics
           RegisterSample.tags_without_dataset RegisterSample.load_some
           RegisterSample.dict_text RegisterSample.arguments []
           {["registration" := {["tags" := ["mse"; "r2"]]}]}
           ["mse"; "r2"] "outputs" ()).
  - reflexivity.
  - reflexivity.
  - reflexivity.
  - reflexivity.
  - reflexivity.
Defined.

Lemma main_without_model_witness :
  ∃ log',
    Register.only_prints [] log'
    ∧ Register.main RegisterSample.nothing_listed RegisterSample.tuple_text
        RegisterSample.dataset_by_id RegisterSample.registering
        RegisterSample.chdir_done "parent-run" RegisterSample.experiment
        RegisterSample.parameters RegisterSample.metrics
        RegisterSample.tags_with_dataset RegisterSample.load_none
        RegisterSample.dict_text RegisterSample.arguments []
      = (Raised Register.SystemExit_0, log')
    ∧ isinstance_Exception Register.SystemExit_0 = false.
Proof.
  apply (RegisterFacts.main_without_model
           RegisterSample.nothing_listed RegisterSample.tuple_text
           RegisterSample.dataset_by_id RegisterSample.registering
           RegisterSample.chdir_done "parent-run" RegisterSample.experiment
           RegisterSample.parameters RegisterSample.metrics
           RegisterSample.tags_with_dataset RegisterSample.load_none
           RegisterSample.dict_text RegisterSample.arguments []
           {["registration" := {["tags" := ["mse"; "r2"]]}]}
           ["mse"; "r2"] "outputs").
  - reflexivity.
  - reflexivity.
  - reflexivity.
  - reflexivity.
Defined.
